(** * Anothem backend: image and annotation persistence

    A shallow embedding of the FastAPI handlers of [app/routers/images.py]
    and [app/routers/annotations.py] over the schema declared in
    [app/models/image.py] and [app/models/annotation.py].

    The two relational tables are lists of rows in heap order, the
    Supabase bucket is a finite map from storage path to object, and a
    request handler is a computation that reads its per-request
    environment, threads the open database session, the committed store
    and the calls it issues, and may raise.

    Requests are taken one at a time.  The storage service may reject
    any upload or removal.  The database accepts every commit, enforces
    the foreign key and the column types the models declare (INTEGER
    ids, a JSONB payload), keeps what its sequences have issued even
    when the statement fails, orders rows of one [created_at] as it
    pleases, and answers [.first()] with the first matching row in heap
    order. *)

From Stdlib Require Import ZArith Lia Ascii String.
From stdpp Require Import base decidable option list sorting gmap strings.

Local Open Scope Z_scope.

(** ** app/models *)

(** [models.Image]: table "images". *)
Module Image.
Record t : Type := mk {
  id : Z;
  filename : string;
  storage_path : string;
  public_url : string;
  created_at : Z
}.
End Image.

(** [models.Annotation]: table "annotations".  [data] is the JSONB
    column; the list of Fabric.js objects it holds is never inspected by
    the service, so the type of its elements is a parameter. *)
Module Annotation.
Record t (Elem : Type) : Type := mk {
  id : Z;
  image_id : Z;
  data : list Elem;
  updated_at : Z
}.
Arguments mk {Elem}.
Arguments id {Elem}.
Arguments image_id {Elem}.
Arguments data {Elem}.
Arguments updated_at {Elem}.
End Annotation.

(** The dictionary returned by the two mutating endpoints. *)
Record StatusMessage : Type := {
  status : string;
  message : string
}.

(** ** Python strings *)

(** [s.split(sep)] for a one-character separator. *)
Fixpoint split (sep : ascii) (s : string) : list string :=
  match s with
  | EmptyString => [EmptyString]
  | String c s' =>
      if Ascii.eqb c sep then EmptyString :: split sep s'
      else match split sep s' with
           | [] => [String c EmptyString]
           | w :: ws => String c w :: ws
           end
  end.

(** [c in s]. *)
Fixpoint contains (c : ascii) (s : string) : bool :=
  match s with
  | EmptyString => false
  | String c' s' => Ascii.eqb c' c || contains c s'
  end.

Definition dot : ascii := "."%char.

(** ** Exceptions, events and the store *)

Inductive exn : Type :=
| HTTPException (status_code : Z) (detail : string)
| StorageException (message : string)
| IndexError
| IntegrityError (constraint : string)
| DataError (message : string).

(** [str(e)]. *)
Definition exn_str (e : exn) : string :=
  match e with
  | HTTPException c d => d
  | StorageException m => m
  | IndexError => "list index out of range"
  | IntegrityError c => c
  | DataError m => m
  end.

Inductive result (A : Type) : Type :=
| Ok (a : A)
| Raise (e : exn).
Arguments Ok {A}.
Arguments Raise {A}.

(** The status code the framework answers with: an [HTTPException]
    carries its own, any other exception escaping a handler is a 500. *)
Definition status_code_of {A} (r : result A) : Z :=
  match r with
  | Ok _ => 200
  | Raise (HTTPException c _) => c
  | Raise _ => 500
  end.

(** What a handler does to the outside besides the database: calls on
    the storage client and lines printed to the log. *)
Inductive event : Type :=
| StorageUpload (path : string) (content_type : string)
| StorageGetPublicUrl (path : string)
| StorageRemove (paths : list string)
| PrintLine (line : string).

(** An object of the bucket. *)
Record Blob : Type := {
  blob_content : list Byte.byte;
  blob_content_type : string
}.

(** The relational store: both tables and the two id sequences. *)
Record Tables (Elem : Type) : Type := {
  images : list Image.t;
  annotations : list (Annotation.t Elem);
  images_id_seq : Z;
  annotations_id_seq : Z
}.
Arguments images {Elem}.
Arguments annotations {Elem}.
Arguments images_id_seq {Elem}.
Arguments annotations_id_seq {Elem}.

(** Everything that outlives a request: the committed tables and the
    bucket "images". *)
Record World (Elem : Type) : Type := {
  database : Tables Elem;
  bucket : gmap string Blob
}.
Arguments database {Elem}.
Arguments bucket {Elem}.

(** What a request gets from outside the program: the database clock
    at its transaction, the identifier [uuid.uuid4()] draws, whether
    the storage service accepts the calls ([Some cause] when the client
    raises), and the order in which the engine happens to return rows
    that an ORDER BY leaves tied (smaller rank first). *)
Record Env : Type := {
  now : Z;
  uuid4 : string;
  upload_failure : option string;
  remove_failure : option string;
  tie_rank : Image.t → Z
}.

(** The state of a request in progress: [session] is the view of the
    open transaction, [world] what is committed, [effects] the calls
    issued so far. *)
Record Req (Elem : Type) : Type := {
  session : Tables Elem;
  world : World Elem;
  effects : list event
}.
Arguments session {Elem}.
Arguments world {Elem}.
Arguments effects {Elem}.

(** What is left when the request is over. *)
Record Outcome (Elem A : Type) : Type := {
  returned : result A;
  final : World Elem;
  trace : list event
}.
Arguments returned {Elem A}.
Arguments final {Elem A}.
Arguments trace {Elem A}.

Definition empty_tables {Elem} : Tables Elem :=
  {| images := []; annotations := []; images_id_seq := 1; annotations_id_seq := 1 |}.

Definition empty_world {Elem} : World Elem :=
  {| database := empty_tables; bucket := ∅ |}.

(** [fastapi.UploadFile], with the bytes [await file.read()] yields. *)
Module UploadFile.
Record t : Type := mk {
  filename : string;
  content_type : string;
  content : list Byte.byte
}.
End UploadFile.

(** [created_at DESC]: [a] may come before [b]. *)
Definition newer_first (a b : Image.t) : Prop :=
  Image.created_at b ≤ Image.created_at a.

#[global] Instance newer_first_dec : RelDecision newer_first :=
  λ a b, decide (Image.created_at b ≤ Image.created_at a).

(** The order a query with [ORDER BY created_at DESC] returns its rows
    in: newest first, and rows of one [created_at] as the engine of
    this request ranks them. *)
Definition scan_order (env : Env) (a b : Image.t) : Prop :=
  Image.created_at b < Image.created_at a
  ∨ (Image.created_at a = Image.created_at b ∧ tie_rank env a ≤ tie_rank env b).

#[global] Instance scan_order_dec env : RelDecision (scan_order env).
Proof. intros a b. unfold scan_order. apply _. Defined.

(** The ranges of the engine's INTEGER and BIGINT. *)
Definition in_integer (k : Z) : Prop := -2147483648 ≤ k ∧ k < 2147483648.

Definition in_bigint (k : Z) : Prop :=
  -9223372036854775808 ≤ k ∧ k < 9223372036854775808.

#[global] Instance in_integer_dec k : Decision (in_integer k).
Proof. unfold in_integer. apply _. Defined.

#[global] Instance in_bigint_dec k : Decision (in_bigint k).
Proof. unfold in_bigint. apply _. Defined.

(** ** Request handlers as computations *)

Definition M (Elem A : Type) : Type :=
  Env → Req Elem → result A * Req Elem.

Section Handlers.
Context {Elem : Type}.

(** [supabase.storage.from_("images").get_public_url]: a function of
    the path fixed by the client's configuration. *)
Variable get_public_url : string → string.

(** What the JSONB column makes of a value written to it: [None] when
    the engine refuses the value (a string that holds U+0000, a number
    that is no JSON number), else the value a later SELECT reads back
    (the column keeps numbers as decimals, so a float may come back as
    another number). *)
Variable jsonb : list Elem → option (list Elem).

(** The unit of work's test for "the value assigned to a loaded
    attribute equals the loaded one": Python's [==], which takes [True]
    for [1].  An assignment that passes it emits no UPDATE, so
    [onupdate] does not fire either. *)
Variable is_equal : list Elem → list Elem → bool.

Local Abbreviation M := (M Elem).

Definition ret {A} (a : A) : M A := λ _ s, (Ok a, s).

Definition bind {A B} (m : M A) (k : A → M B) : M B :=
  λ env s,
    match m env s with
    | (Ok a, s') => k a env s'
    | (Raise e, s') => (Raise e, s')
    end.

Definition raise {A} (e : exn) : M A := λ _ s, (Raise e, s).

(** [try: m  except Exception as e: h e].  What [m] did before raising
    stays done. *)
Definition try_except {A} (m : M A) (h : exn → M A) : M A :=
  λ env s,
    match m env s with
    | (Ok a, s') => (Ok a, s')
    | (Raise e, s') => h e env s'
    end.

Notation "'let*' x := m 'in' k" := (bind m (λ x, k))
  (at level 10, x name, m at level 100, k at level 200).

Definition emit (ev : event) : M unit :=
  λ _ s, (Ok tt, {| session := session s; world := world s;
                    effects := effects s ++ [ev] |}).

Definition read_session {A} (f : Tables Elem → A) : M A :=
  λ _ s, (Ok (f (session s)), s).

(** *** The interpreter and the standard library *)

(** [l[-1]]. *)
Definition index_last {A} (l : list A) : M A :=
  match last l with
  | Some x => ret x
  | None => raise IndexError
  end.

Definition uuid_uuid4 : M string := λ env s, (Ok (uuid4 env), s).

Definition print (line : string) : M unit := emit (PrintLine line).

Definition file_read (file : UploadFile.t) : M (list Byte.byte) :=
  ret (UploadFile.content file).

(** *** The storage client *)

(** [.upload(path, file, file_options)]: the object is stored when the
    service accepts the call and nothing is stored when it raises. *)
Definition storage_upload (path : string) (file : list Byte.byte)
    (content_type : string) : M unit :=
  let* _ := emit (StorageUpload path content_type) in
  λ env s,
    match upload_failure env with
    | Some cause => (Raise (StorageException cause), s)
    | None =>
        (Ok tt,
         {| session := session s;
            world := {| database := database (world s);
                        bucket := <[path := {| blob_content := file;
                                                blob_content_type := content_type |}]>
                                    (bucket (world s)) |};
            effects := effects s |})
    end.

Definition storage_get_public_url (path : string) : M string :=
  let* _ := emit (StorageGetPublicUrl path) in
  ret (get_public_url path).

(** [.remove(paths)]. *)
Definition storage_remove (paths : list string) : M unit :=
  let* _ := emit (StorageRemove paths) in
  λ env s,
    match remove_failure env with
    | Some cause => (Raise (StorageException cause), s)
    | None =>
        (Ok tt,
         {| session := session s;
            world := {| database := database (world s);
                        bucket := foldr delete (bucket (world s)) paths |};
            effects := effects s |})
    end.

(** *** The database session *)

(** [db.query(models.Image).filter(models.Image.id == k).first()]. *)
Definition query_image_first (k : Z) : M (option Image.t) :=
  read_session (λ t, List.find (λ r, bool_decide (Image.id r = k)) (images t)).

(** [db.query(models.Annotation)
       .filter(models.Annotation.image_id == k).first()]. *)
Definition query_annotation_first (k : Z) : M (option (Annotation.t Elem)) :=
  read_session
    (λ t, List.find (λ r, bool_decide (Annotation.image_id r = k)) (annotations t)).

(** [db.query(models.Image).order_by(models.Image.created_at.desc())
       .offset(skip).limit(limit).all()].  OFFSET and LIMIT are
    BIGINT: the engine refuses a value outside that type, and a
    negative one. *)
Definition query_images_newest_first (skip limit : Z) : M (list Image.t) :=
  if bool_decide (¬ (in_bigint skip ∧ in_bigint limit))
  then raise (DataError "bigint out of range")
  else if bool_decide (skip < 0) then raise (DataError "OFFSET must not be negative")
  else if bool_decide (limit < 0) then raise (DataError "LIMIT must not be negative")
  else λ env s,
         (Ok (take (Z.to_nat limit)
                (drop (Z.to_nat skip)
                   (merge_sort (scan_order env) (images (session s))))), s).

(** [nextval] of the two sequences. *)
Definition draw_image_id (t : Tables Elem) : Tables Elem :=
  {| images := images t; annotations := annotations t;
     images_id_seq := images_id_seq t + 1;
     annotations_id_seq := annotations_id_seq t |}.

Definition draw_annotation_id (t : Tables Elem) : Tables Elem :=
  {| images := images t; annotations := annotations t;
     images_id_seq := images_id_seq t;
     annotations_id_seq := annotations_id_seq t + 1 |}.

(** A sequence is outside the transaction: a value it has issued stays
    issued, in the session and in the committed store alike, whatever
    becomes of the statement. *)
Definition issued (draw : Tables Elem → Tables Elem) (s : Req Elem) : Req Elem :=
  {| session := draw (session s);
     world := {| database := draw (database (world s)); bucket := bucket (world s) |};
     effects := effects s |}.

(** [db.add(models.Image(filename=.., storage_path=.., public_url=..))]
    as flushed: the id comes from the sequence and [created_at] from
    [server_default=func.now()].  The row returned is the one
    [db.refresh] reloads. *)
Definition db_add_image (filename storage_path public_url : string) : M Image.t :=
  λ env s,
    let row :=
      Image.mk (images_id_seq (session s)) filename storage_path public_url (now env) in
    let s' := issued draw_image_id s in
    let t := session s' in
    (Ok row,
     {| session := {| images := images t ++ [row];
                      annotations := annotations t;
                      images_id_seq := images_id_seq t;
                      annotations_id_seq := annotations_id_seq t |};
        world := world s'; effects := effects s' |}).

(** [db.add(models.Annotation(image_id=.., data=..))] as flushed.  The
    engine reads the values first: it refuses a payload that is no
    JSONB and an [image_id] outside INTEGER.  Then it draws the id, and
    [ForeignKey("images.id")] makes the INSERT fail when no image has
    that id. *)
Definition db_add_annotation (image_id : Z) (data : list Elem) : M unit :=
  λ env s,
    match jsonb data with
    | None => (Raise (DataError "invalid input for type jsonb"), s)
    | Some stored =>
        if bool_decide (in_integer image_id) then
          let id := annotations_id_seq (session s) in
          let s' := issued draw_annotation_id s in
          let t := session s' in
          if existsb (λ r, bool_decide (Image.id r = image_id)) (images t) then
            (Ok tt,
             {| session := {| images := images t;
                              annotations :=
                                annotations t ++
                                  [Annotation.mk id image_id stored (now env)];
                              images_id_seq := images_id_seq t;
                              annotations_id_seq := annotations_id_seq t |};
                world := world s'; effects := effects s' |})
          else (Raise (IntegrityError "annotations_image_id_fkey"), s')
        else (Raise (DataError "integer out of range"), s)
    end.

(** [existing.data = data] as flushed.  When the value is [==] to the
    loaded one nothing is written.  Otherwise UPDATE .. WHERE id =
    existing.id, with [onupdate=func.now()] on [updated_at]; the engine
    refuses a payload that is no JSONB. *)
Definition set_annotation_data (existing : Annotation.t Elem) (data : list Elem)
    : M unit :=
  λ env s,
    if is_equal data (Annotation.data existing) then (Ok tt, s)
    else
      match jsonb data with
      | None => (Raise (DataError "invalid input for type jsonb"), s)
      | Some stored =>
          let t := session s in
          (Ok tt,
           {| session := {| images := images t;
                            annotations :=
                              (λ r, if bool_decide (Annotation.id r = Annotation.id existing)
                                    then Annotation.mk (Annotation.id r)
                                           (Annotation.image_id r) stored (now env)
                                    else r) <$> annotations t;
                            images_id_seq := images_id_seq t;
                            annotations_id_seq := annotations_id_seq t |};
              world := world s; effects := effects s |})
      end.

(** [db.query(models.Annotation)
       .filter(models.Annotation.image_id == k).delete()]; the count
    of rows matched is returned. *)
Definition query_annotations_delete (k : Z) : M Z :=
  λ _ s,
    let t := session s in
    (Ok (Z.of_nat (length (filter (λ r, Annotation.image_id r = k) (annotations t)))),
     {| session := {| images := images t;
                      annotations := filter (λ r, Annotation.image_id r ≠ k) (annotations t);
                      images_id_seq := images_id_seq t;
                      annotations_id_seq := annotations_id_seq t |};
        world := world s; effects := effects s |}).

(** [db.delete(image)] as flushed: DELETE .. WHERE id = image.id, which
    the foreign key of "annotations" rejects while a row there still
    refers to the image. *)
Definition db_delete_image (image : Image.t) : M unit :=
  λ _ s,
    let t := session s in
    if existsb (λ r, bool_decide (Annotation.image_id r = Image.id image)) (annotations t)
    then (Raise (IntegrityError "annotations_image_id_fkey"), s)
    else
      (Ok tt,
       {| session := {| images := filter (λ r, Image.id r ≠ Image.id image) (images t);
                        annotations := annotations t;
                        images_id_seq := images_id_seq t;
                        annotations_id_seq := annotations_id_seq t |};
          world := world s; effects := effects s |}).

(** [db.commit()]: the session's view becomes the committed store. *)
Definition db_commit : M unit :=
  λ _ s,
    (Ok tt,
     {| session := session s;
        world := {| database := session s; bucket := bucket (world s) |};
        effects := effects s |}).

(** One request: [get_db] opens a session on the committed store, the
    handler runs, and the session is closed, which drops whatever was
    not committed. *)
Definition run {A} (env : Env) (m : M A) (w : World Elem) : Outcome Elem A :=
  let '(r, s) := m env {| session := database w; world := w; effects := [] |} in
  {| returned := r; final := world s; trace := effects s |}.

(** ** app/routers/images.py *)

(** [GET /images/]. *)
Definition get_images (skip limit : Z) : M (list Image.t) :=
  let* images := query_images_newest_first skip limit in
  ret images.

(** [POST /images/upload]. *)
Definition upload_image (file : UploadFile.t) : M Image.t :=
  let* file_ext := index_last (split dot (UploadFile.filename file)) in
  let* uuid := uuid_uuid4 in
  let file_path := uuid +:+ "." +:+ file_ext in
  let* _ :=
    try_except
      (let* file_content := file_read file in
       storage_upload file_path file_content (UploadFile.content_type file))
      (λ e, raise (HTTPException 500 ("Supabase Upload Failed: " +:+ exn_str e))) in
  let* public_url := storage_get_public_url file_path in
  let* db_image := db_add_image (UploadFile.filename file) file_path public_url in
  let* _ := db_commit in
  ret db_image.

(** [DELETE /images/{image_id}]. *)
Definition delete_image (image_id : Z) : M StatusMessage :=
  let* image := query_image_first image_id in
  match image with
  | None => raise (HTTPException 404 "Image not found")
  | Some image =>
      let* _ :=
        try_except
          (storage_remove [Image.storage_path image])
          (λ e, print ("Warning: Failed to delete from storage: " +:+ exn_str e)) in
      let* _ := query_annotations_delete image_id in
      let* _ := db_delete_image image in
      let* _ := db_commit in
      ret {| status := "success"; message := "Image deleted" |}
  end.

(** ** app/routers/annotations.py *)

(** [GET /annotations/{image_id}]. *)
Definition get_annotations (image_id : Z) : M (list Elem) :=
  let* annotation := query_annotation_first image_id in
  match annotation with
  | None => ret []
  | Some annotation => ret (Annotation.data annotation)
  end.

(** [POST /annotations/{image_id}]; [data] is [payload.data]. *)
Definition save_annotations (image_id : Z) (data : list Elem) : M StatusMessage :=
  let* existing := query_annotation_first image_id in
  let* _ :=
    match existing with
    | Some existing => set_annotation_data existing data
    | None => db_add_annotation image_id data
    end in
  let* _ := db_commit in
  ret {| status := "success"; message := "Annotations saved" |}.

(** ** The service as a transition system *)

Inductive request : Type :=
| GetImages (skip limit : Z)
| UploadImage (file : UploadFile.t)
| DeleteImage (image_id : Z)
| GetAnnotations (image_id : Z)
| SaveAnnotations (image_id : Z) (data : list Elem).

(** The store a request leaves behind. *)
Definition step (env : Env) (r : request) (w : World Elem) : World Elem :=
  match r with
  | GetImages skip limit => final (run env (get_images skip limit) w)
  | UploadImage file => final (run env (upload_image file) w)
  | DeleteImage image_id => final (run env (delete_image image_id) w)
  | GetAnnotations image_id => final (run env (get_annotations image_id) w)
  | SaveAnnotations image_id data => final (run env (save_annotations image_id data) w)
  end.

(** The stores the service can be in: the empty one, and whatever a
    request makes of one of them. *)
Inductive reachable : World Elem → Prop :=
| reachable_empty : reachable empty_world
| reachable_step env r w : reachable w → reachable (step env r w).
End Handlers.

Arguments request : clear implicits.

(** ** The router *)

(** What a request is answered with, one shape per endpoint. *)
Inductive response (Elem : Type) : Type :=
| ImageList (images : list Image.t)
| ImageRow (image : Image.t)
| StatusBody (body : StatusMessage)
| AnnotationData (data : list Elem).
Arguments ImageList {Elem}.
Arguments ImageRow {Elem}.
Arguments StatusBody {Elem}.
Arguments AnnotationData {Elem}.

Definition outcome_map {Elem A B} (f : A → B) (o : Outcome Elem A) : Outcome Elem B :=
  {| returned := match returned o with Ok a => Ok (f a) | Raise e => Raise e end;
     final := final o;
     trace := trace o |}.

(** [app.include_router(images.router)] and
    [app.include_router(annotations.router)]: each request goes to its
    handler, in a session of its own. *)
Definition handle {Elem} (get_public_url : string → string)
    (jsonb : list Elem → option (list Elem))
    (is_equal : list Elem → list Elem → bool) (env : Env) (r : request Elem)
    (w : World Elem) : Outcome Elem (response Elem) :=
  match r with
  | GetImages skip limit => outcome_map ImageList (run env (get_images skip limit) w)
  | UploadImage file => outcome_map ImageRow (run env (upload_image get_public_url file) w)
  | DeleteImage image_id => outcome_map StatusBody (run env (delete_image image_id) w)
  | GetAnnotations image_id =>
      outcome_map AnnotationData (run env (get_annotations image_id) w)
  | SaveAnnotations image_id data =>
      outcome_map StatusBody (run env (save_annotations jsonb is_equal image_id data) w)
  end.

(** ** Predicates on the store *)

Definition image_rows {Elem} (w : World Elem) (k : Z) : list Image.t :=
  filter (λ r, Image.id r = k) (images (database w)).

Definition annotation_rows {Elem} (w : World Elem) (k : Z) : list (Annotation.t Elem) :=
  filter (λ r, Annotation.image_id r = k) (annotations (database w)).

(** At most one annotation row per image: no image id occurs twice in
    the column [annotations.image_id]. *)
Definition one_annotation_per_image {Elem} (w : World Elem) : Prop :=
  NoDup (Annotation.image_id <$> annotations (database w)).

(** What the schema and the sequences promise of a store: ids were
    issued by the sequences and identify their rows, and every
    annotation row refers to an image row. *)
Record consistent {Elem} (w : World Elem) : Prop := {
  image_ids_issued :
    ∀ r, r ∈ images (database w) → Image.id r < images_id_seq (database w);
  annotation_ids_issued :
    ∀ a, a ∈ annotations (database w) →
         Annotation.id a < annotations_id_seq (database w);
  image_ids_unique : NoDup (Image.id <$> images (database w));
  annotation_ids_unique : NoDup (Annotation.id <$> annotations (database w));
  annotations_refer :
    ∀ a, a ∈ annotations (database w) → image_rows w (Annotation.image_id a) ≠ []
}.

(** The page of [get_images] over a store, in the order of the
    request's engine. *)
Definition page_of {Elem} (env : Env) (w : World Elem) (skip limit : Z) : list Image.t :=
  take (Z.to_nat limit)
    (drop (Z.to_nat skip) (merge_sort (scan_order env) (images (database w)))).

(** ** Vocabulary of the statements *)

(** The extension [upload_image] derives and the path it generates. *)
Definition file_ext_of (filename : string) : string :=
  default EmptyString (last (split dot filename)).

Definition file_path_of (env : Env) (file : UploadFile.t) : string :=
  uuid4 env +:+ "." +:+ file_ext_of (UploadFile.filename file).

(** The row an accepted upload inserts. *)
Definition uploaded_row {Elem} (get_public_url : string → string) (env : Env)
    (file : UploadFile.t) (w : World Elem) : Image.t :=
  Image.mk (images_id_seq (database w)) (UploadFile.filename file)
    (file_path_of env file) (get_public_url (file_path_of env file)) (now env).

(** The success markers of [delete_image] and [save_annotations]. *)
Definition deleted : StatusMessage :=
  {| status := "success"; message := "Image deleted" |}.

Definition saved : StatusMessage :=
  {| status := "success"; message := "Annotations saved" |}.

(** The table "annotations" after the UPDATE of [existing] to the
    value [stored]. *)
Definition updated_annotations {Elem} (env : Env) (existing : Annotation.t Elem)
    (stored : list Elem) (l : list (Annotation.t Elem)) : list (Annotation.t Elem) :=
  (λ r, if bool_decide (Annotation.id r = Annotation.id existing)
        then Annotation.mk (Annotation.id r) (Annotation.image_id r) stored (now env)
        else r) <$> l.

(** The committed store after the annotations sequence issued an id
    that no row came to hold. *)
Definition annotation_id_lost {Elem} (w : World Elem) : World Elem :=
  {| database :=
       {| images := images (database w); annotations := annotations (database w);
          images_id_seq := images_id_seq (database w);
          annotations_id_seq := annotations_id_seq (database w) + 1 |};
     bucket := bucket w |}.

(** Newest first with no two equal timestamps next to each other. *)
Definition newer_strictly (a b : Image.t) : Prop :=
  Image.created_at b < Image.created_at a.

Definition descending (l : list Image.t) : Prop := StronglySorted newer_first l.

Definition strictly_descending (l : list Image.t) : Prop :=
  StronglySorted newer_strictly l.

(** A concrete payload for examples: objects with string keys and
    scalar values, the numbers being integers. *)
Inductive scalar : Type :=
| JStr (s : string)
| JNum (n : Z)
| JBool (b : bool).

#[global] Instance scalar_eq_dec : EqDecision scalar.
Proof. solve_decision. Defined.

Definition shape : Type := gmap string scalar.

Definition rect : shape := {[ "type"%string := JStr "rect"; "x"%string := JNum 1 ]}.
Definition circle : shape := {[ "type"%string := JStr "circle"; "r"%string := JNum 5 ]}.

(** Python's [==] on these values: [True == 1] and [False == 0], and
    nothing else differs from identity. *)
Definition python_value (v : scalar) : scalar :=
  match v with
  | JBool b => JNum (if b then 1 else 0)
  | _ => v
  end.

Definition python_shape (m : gmap string scalar) : gmap string scalar :=
  python_value <$> m.

Definition python_eq (new old : list shape) : bool :=
  bool_decide (python_shape <$> new = python_shape <$> old).

(** The JSONB column on these values: it refuses a key or a string
    that holds U+0000 and keeps every other value as it is. *)
Definition nul : ascii := "000"%char.

Definition jsonb_text (s : string) : bool := negb (contains nul s).

Definition jsonb_scalar (v : scalar) : bool :=
  match v with
  | JStr s => jsonb_text s
  | _ => true
  end.

Definition jsonb_column (data : list shape) : option (list shape) :=
  if forallb (λ m : gmap string scalar,
                forallb (λ kv, jsonb_text kv.1 && jsonb_scalar kv.2) (map_to_list m)) data
  then Some data else None.

(** Requests and stores for examples. *)
Definition env_at (t : Z) (uuid : string) : Env :=
  {| now := t; uuid4 := uuid; upload_failure := None; remove_failure := None;
     tie_rank := Image.id |}.

Definition env0 : Env := env_at 10 "0f8fad5b-d9cb-469f-a165-70867728950e".
Definition env_tie : Env := env_at 10 "7c9e6679-7425-40de-944b-e07fc1f90ae7".
Definition env_later : Env := env_at 20 "16fd2706-8baf-433b-82eb-8c7fada847da".
Definition env_last : Env := env_at 40 "6ba7b810-9dad-11d1-80b4-00c04fd430c8".

(** An engine that returns tied rows the other way round. *)
Definition env_reversed : Env :=
  {| now := 50; uuid4 := "6ba7b811-9dad-11d1-80b4-00c04fd430c8";
     upload_failure := None; remove_failure := None;
     tie_rank := λ r, - Image.id r |}.

Definition env_upload_fails : Env :=
  {| now := 30; uuid4 := "886313e1-3b8a-5372-9b90-0c9aee199e5d";
     upload_failure := Some "503 Service Unavailable"; remove_failure := None;
     tie_rank := Image.id |}.

Definition env_remove_fails : Env :=
  {| now := 30; uuid4 := "886313e1-3b8a-5372-9b90-0c9aee199e5d";
     upload_failure := None; remove_failure := Some "503 Service Unavailable";
     tie_rank := Image.id |}.

Definition cat_png : UploadFile.t := UploadFile.mk "cat.png" "image/png" [].
Definition dog_jpg : UploadFile.t := UploadFile.mk "dog.jpg" "image/jpeg" [].
Definition readme : UploadFile.t := UploadFile.mk "README" "application/octet-stream" [].

Definition url_of (path : string) : string :=
  "https://project.supabase.co/storage/v1/object/public/images/" +:+ path.

Definition service (env : Env) (r : request shape) (w : World shape) : World shape :=
  step url_of jsonb_column python_eq env r w.

(** One image; the image annotated; two images uploaded at the same
    instant of the database clock; two images uploaded one after the
    other, and both annotated. *)
Definition w_cat : World shape := service env0 (UploadImage cat_png) empty_world.

Definition w_cat_rect : World shape := service env_later (SaveAnnotations 1 [rect]) w_cat.

Definition w_tie : World shape := service env_tie (UploadImage dog_jpg) w_cat.

Definition w_two : World shape := service env_later (UploadImage dog_jpg) w_cat.

Definition w_two_annotated : World shape :=
  service env_last (SaveAnnotations 2 [circle])
    (service env_last (SaveAnnotations 1 [rect]) w_two).

Definition w_three : World shape := service env_last (UploadImage readme) w_two.

(** Payloads that show the column and the equality test at work: a
    boolean where a number was, a string that holds U+0000. *)
Definition x_is_one : shape := {[ "x"%string := JNum 1 ]}.
Definition x_is_true : shape := {[ "x"%string := JBool true ]}.
Definition x_is_nul : shape := {[ "x"%string := JStr (String nul EmptyString) ]}.

(** ** Lists and strings *)

Lemma find_head_filter {A} (P : A → Prop) `{!∀ x, Decision (P x)} (l : list A) :
  List.find (λ x, bool_decide (P x)) l = head (filter P l).
Proof.
  induction l as [|x l IH]; [done|].
  cbn [List.find]. rewrite filter_cons.
  destruct (decide (P x)) as [Hx|Hx].
  - by rewrite bool_decide_eq_true_2.
  - by rewrite bool_decide_eq_false_2.
Qed.

Lemma existsb_filter {A} (P : A → Prop) `{!∀ x, Decision (P x)} (l : list A) :
  existsb (λ x, bool_decide (P x)) l = bool_decide (filter P l ≠ []).
Proof.
  induction l as [|x l IH]; [done|].
  cbn [existsb]. rewrite filter_cons, IH.
  destruct (decide (P x)) as [Hx|Hx].
  - rewrite (bool_decide_eq_true_2 (P x)) by done.
    symmetry. by apply bool_decide_eq_true_2.
  - by rewrite bool_decide_eq_false_2.
Qed.

Lemma filter_filter_neg {A} (P : A → Prop) `{!∀ x, Decision (P x)} (l : list A) :
  filter P (filter (λ x, ¬ P x) l) = [].
Proof.
  induction l as [|x l IH]; [done|].
  rewrite (filter_cons (λ x, ¬ P x)).
  destruct (decide (¬ P x)) as [Hx|Hx]; [|done].
  rewrite filter_cons. by destruct (decide (P x)).
Qed.

(** [split] always yields at least one piece, so [[-1]] is defined. *)
Lemma split_nonempty sep s : split sep s ≠ [].
Proof.
  destruct s as [|c s]; cbn [split]; [done|].
  destruct (Ascii.eqb c sep); [done|]. by destruct (split sep s).
Qed.

Lemma last_split_is_Some sep s : is_Some (last (split sep s)).
Proof.
  destruct (split sep s) as [|w ws] eqn:E.
  - by apply split_nonempty in E.
  - rewrite last_cons. destruct (last ws); eauto.
Qed.

Example split_two_dots : split dot "archive.tar.gz" = ["archive"; "tar"; "gz"]%string.
Proof. reflexivity. Qed.

Example split_trailing_dot : split dot "photo." = ["photo"; ""]%string.
Proof. reflexivity. Qed.

Example split_empty : split dot "" = [""%string].
Proof. reflexivity. Qed.

(** Without the separator the only piece is the string itself. *)
Lemma split_without_sep sep s : contains sep s = false → split sep s = [s].
Proof.
  induction s as [|c s IH]; cbn [contains split]; [done|].
  intros [Hc Hs]%orb_false_iff. rewrite Hc, (IH Hs). done.
Qed.

(** ** What each handler does, in closed form *)

(** Exposes the state-passing code of a handler. *)
Ltac unfold_handler :=
  unfold run, get_images, upload_image, delete_image, get_annotations,
    save_annotations, index_last, uuid_uuid4, print, file_read,
    storage_upload, storage_get_public_url, storage_remove,
    query_image_first, query_annotation_first, query_images_newest_first,
    db_add_image, db_add_annotation, set_annotation_data,
    query_annotations_delete, db_delete_image, db_commit, issued,
    draw_image_id, draw_annotation_id,
    emit, read_session, try_except, bind, raise, ret.

Section Properties.
Context {Elem : Type}.
Variable get_public_url : string → string.
Variable jsonb : list Elem → option (list Elem).
Variable is_equal : list Elem → list Elem → bool.

Local Abbreviation World := (World Elem).

Lemma upload_image_run env file (w : World) :
  run env (upload_image get_public_url file) w =
    match upload_failure env with
    | Some cause =>
        {| returned := Raise (HTTPException 500 ("Supabase Upload Failed: " +:+ cause));
           final := w;
           trace := [StorageUpload (file_path_of env file) (UploadFile.content_type file)] |}
    | None =>
        {| returned := Ok (uploaded_row get_public_url env file w);
           final :=
             {| database :=
                  {| images := images (database w) ++ [uploaded_row get_public_url env file w];
                     annotations := annotations (database w);
                     images_id_seq := images_id_seq (database w) + 1;
                     annotations_id_seq := annotations_id_seq (database w) |};
                bucket :=
                  <[file_path_of env file :=
                      {| blob_content := UploadFile.content file;
                         blob_content_type := UploadFile.content_type file |}]> (bucket w) |};
           trace := [StorageUpload (file_path_of env file) (UploadFile.content_type file);
                     StorageGetPublicUrl (file_path_of env file)] |}
    end.
Proof.
  unfold uploaded_row, file_path_of, file_ext_of.
  destruct (last_split_is_Some dot (UploadFile.filename file)) as [ext Hext].
  unfold_handler. rewrite Hext. cbn -[String.append].
  destruct (upload_failure env) as [cause|]; cbn -[String.append]; done.
Qed.

Lemma head_filter_Some {A} (P : A → Prop) `{!∀ x, Decision (P x)} (l : list A) x :
  head (filter P l) = Some x → P x.
Proof.
  intros Hhd. assert (x ∈ filter P l) as Hin.
  { destruct (filter P l); simplify_eq/=. left. }
  by apply list_elem_of_filter in Hin as [? _].
Qed.

Lemma delete_image_run env image_id (w : World) :
  run env (delete_image image_id) w =
    match head (image_rows w image_id) with
    | None =>
        {| returned := Raise (HTTPException 404 "Image not found");
           final := w; trace := [] |}
    | Some image =>
        {| returned := Ok deleted;
           final :=
             {| database :=
                  {| images := filter (λ r, Image.id r ≠ image_id) (images (database w));
                     annotations :=
                       filter (λ r, Annotation.image_id r ≠ image_id)
                         (annotations (database w));
                     images_id_seq := images_id_seq (database w);
                     annotations_id_seq := annotations_id_seq (database w) |};
                bucket :=
                  match remove_failure env with
                  | Some _ => bucket w
                  | None => delete (Image.storage_path image) (bucket w)
                  end |};
           trace :=
             StorageRemove [Image.storage_path image] ::
             match remove_failure env with
             | Some cause => [PrintLine ("Warning: Failed to delete from storage: " +:+ cause)]
             | None => []
             end |}
    end.
Proof.
  unfold image_rows, deleted. unfold_handler. cbn -[String.append].
  rewrite (find_head_filter (λ r, Image.id r = image_id)).
  destruct (head (filter _ (images (database w)))) as [image|] eqn:Himg; [|done].
  apply head_filter_Some in Himg as ->.
  destruct (remove_failure env) as [cause|]; cbn -[String.append].
  all: rewrite (existsb_filter (λ r, Annotation.image_id r = image_id)).
  all: rewrite filter_filter_neg; by rewrite bool_decide_eq_false_2 by auto.
Qed.

Lemma get_annotations_run env image_id (w : World) :
  run env (get_annotations image_id) w =
    {| returned :=
         Ok match annotation_rows w image_id with
            | [] => []
            | annotation :: _ => Annotation.data annotation
            end;
       final := w; trace := [] |}.
Proof.
  unfold annotation_rows. unfold_handler. cbn.
  rewrite (find_head_filter (λ r, Annotation.image_id r = image_id)).
  by destruct (filter _ (annotations (database w))).
Qed.

Lemma save_annotations_run env image_id data (w : World) :
  run env (save_annotations jsonb is_equal image_id data) w =
    match head (annotation_rows w image_id) with
    | Some existing =>
        if is_equal data (Annotation.data existing) then
          {| returned := Ok saved;
             final := {| database := database w; bucket := bucket w |};
             trace := [] |}
        else
          match jsonb data with
          | None =>
              {| returned := Raise (DataError "invalid input for type jsonb");
                 final := w; trace := [] |}
          | Some stored =>
              {| returned := Ok saved;
                 final :=
                   {| database :=
                        {| images := images (database w);
                           annotations :=
                             updated_annotations env existing stored
                               (annotations (database w));
                           images_id_seq := images_id_seq (database w);
                           annotations_id_seq := annotations_id_seq (database w) |};
                      bucket := bucket w |};
                 trace := [] |}
          end
    | None =>
        match jsonb data with
        | None =>
            {| returned := Raise (DataError "invalid input for type jsonb");
               final := w; trace := [] |}
        | Some stored =>
            if bool_decide (in_integer image_id) then
              if bool_decide (image_rows w image_id ≠ []) then
                {| returned := Ok saved;
                   final :=
                     {| database :=
                          {| images := images (database w);
                             annotations :=
                               annotations (database w) ++
                                 [Annotation.mk (annotations_id_seq (database w)) image_id
                                    stored (now env)];
                             images_id_seq := images_id_seq (database w);
                             annotations_id_seq := annotations_id_seq (database w) + 1 |};
                        bucket := bucket w |};
                   trace := [] |}
              else
                {| returned := Raise (IntegrityError "annotations_image_id_fkey");
                   final := annotation_id_lost w; trace := [] |}
            else
              {| returned := Raise (DataError "integer out of range");
                 final := w; trace := [] |}
        end
    end.
Proof.
  unfold annotation_rows, image_rows, saved, updated_annotations, annotation_id_lost.
  unfold_handler. cbn.
  rewrite (find_head_filter (λ r, Annotation.image_id r = image_id)).
  destruct (head (filter _ (annotations (database w)))) as [existing|].
  - destruct (is_equal data (Annotation.data existing)); [done|].
    by destruct (jsonb data).
  - destruct (jsonb data) as [stored|]; [|done].
    destruct (bool_decide (in_integer image_id)); [|done]. cbn.
    rewrite (existsb_filter (λ r, Image.id r = image_id)).
    by destruct (bool_decide _).
Qed.

Lemma get_images_run env skip limit (w : World) :
  run env (get_images skip limit) w =
    {| returned :=
         if bool_decide (¬ (in_bigint skip ∧ in_bigint limit))
         then Raise (DataError "bigint out of range")
         else if bool_decide (skip < 0) then Raise (DataError "OFFSET must not be negative")
         else if bool_decide (limit < 0) then Raise (DataError "LIMIT must not be negative")
         else Ok (page_of env w skip limit);
       final := w; trace := [] |}.
Proof.
  unfold page_of. unfold_handler. do 3 (case_bool_decide; [done|]). done.
Qed.

(** ** Upload *)

(** C1: when the storage client raises during the upload, the request
    ends in [HTTPException] 500 carrying the cause, and the store it
    leaves (tables, sequences and bucket) is the store it found: no
    image row was added. *)
Theorem upload_write_failure_leaves_store env file (w : World) cause :
  upload_failure env = Some cause →
  returned (run env (upload_image get_public_url file) w)
    = Raise (HTTPException 500 ("Supabase Upload Failed: " +:+ cause))
  ∧ status_code_of (returned (run env (upload_image get_public_url file) w)) = 500
  ∧ final (run env (upload_image get_public_url file) w) = w
  ∧ images (database (final (run env (upload_image get_public_url file) w)))
    = images (database w).
Proof.
  intros Hfail. rewrite upload_image_run, Hfail. by cbn -[String.append].
Qed.

(** C10: a filename without "." does not make the extension
    derivation fail.  The extension is the whole filename, the path
    handed to the storage client is the drawn UUID, ".", and the whole
    filename, and when the storage client accepts the upload that path
    is the [storage_path] of the row returned and stored. *)
Theorem upload_filename_without_dot env file (w : World) :
  contains dot (UploadFile.filename file) = false →
  last (split dot (UploadFile.filename file)) = Some (UploadFile.filename file)
  ∧ returned (run env (upload_image get_public_url file) w) ≠ Raise IndexError
  ∧ head (trace (run env (upload_image get_public_url file) w))
    = Some (StorageUpload (uuid4 env +:+ "." +:+ UploadFile.filename file)
              (UploadFile.content_type file))
  ∧ (upload_failure env = None →
     ∃ image,
       returned (run env (upload_image get_public_url file) w) = Ok image
       ∧ Image.storage_path image = uuid4 env +:+ "." +:+ UploadFile.filename file
       ∧ image ∈ images (database (final (run env (upload_image get_public_url file) w)))
       ∧ is_Some (bucket (final (run env (upload_image get_public_url file) w))
                    !! (uuid4 env +:+ "." +:+ UploadFile.filename file))).
Proof.
  intros Hdot. apply (split_without_sep dot) in Hdot as Hsplit.
  assert (file_path_of env file = uuid4 env +:+ "." +:+ UploadFile.filename file) as Hpath.
  { unfold file_path_of, file_ext_of. by rewrite Hsplit. }
  rewrite upload_image_run, Hsplit, <-Hpath. split; [done|].
  destruct (upload_failure env) as [cause|]; cbn -[String.append].
  - done.
  - repeat split; try done. intros _. exists (uploaded_row get_public_url env file w).
    repeat split; [|by apply lookup_insert_is_Some; left].
    apply elem_of_app. right. left.
Qed.

(** ** Delete *)

(** C2: when an image row with the id exists, [delete_image] returns
    the success marker and leaves no image row with that id and no
    annotation row with that [image_id], whatever the storage client
    answered to the removal. *)
Theorem delete_removes_image_and_annotations env image_id (w : World) :
  image_rows w image_id ≠ [] →
  returned (run env (delete_image image_id) w) = Ok deleted
  ∧ image_rows (final (run env (delete_image image_id) w)) image_id = []
  ∧ annotation_rows (final (run env (delete_image image_id) w)) image_id = [].
Proof.
  intros Hrow. rewrite delete_image_run.
  destruct (image_rows w image_id) as [|image rest] eqn:Hrows; [done|]. cbn.
  split; [done|]. unfold image_rows, annotation_rows. cbn.
  split; [apply (filter_filter_neg (λ r, Image.id r = image_id))|].
  apply (filter_filter_neg (λ r, Annotation.image_id r = image_id)).
Qed.

(** C3: when the storage client raises on the removal, the deletion
    goes on: the request still returns the success marker (a 200),
    both kinds of row are gone, the bucket is as it was, and all that
    is left of the failure is the warning printed after the call. *)
Theorem delete_survives_storage_failure env image_id (w : World) cause :
  image_rows w image_id ≠ [] →
  remove_failure env = Some cause →
  returned (run env (delete_image image_id) w) = Ok deleted
  ∧ status_code_of (returned (run env (delete_image image_id) w)) = 200
  ∧ image_rows (final (run env (delete_image image_id) w)) image_id = []
  ∧ annotation_rows (final (run env (delete_image image_id) w)) image_id = []
  ∧ bucket (final (run env (delete_image image_id) w)) = bucket w
  ∧ ∃ image,
      head (image_rows w image_id) = Some image
      ∧ trace (run env (delete_image image_id) w)
        = [StorageRemove [Image.storage_path image];
           PrintLine ("Warning: Failed to delete from storage: " +:+ cause)].
Proof.
  intros Hrow Hfail. rewrite delete_image_run, Hfail.
  destruct (image_rows w image_id) as [|image rest] eqn:Hrows; [done|].
  cbn -[String.append]. unfold image_rows, annotation_rows. cbn -[String.append].
  repeat split; try done.
  - apply (filter_filter_neg (λ r, Image.id r = image_id)).
  - apply (filter_filter_neg (λ r, Annotation.image_id r = image_id)).
  - by exists image.
Qed.

(** C4: with no image row of that id, [delete_image] raises
    [HTTPException] 404, leaves the whole store as it found it, and
    issues no call to the storage client (nor prints anything). *)
Theorem delete_missing_image_not_found env image_id (w : World) :
  image_rows w image_id = [] →
  returned (run env (delete_image image_id) w)
    = Raise (HTTPException 404 "Image not found")
  ∧ status_code_of (returned (run env (delete_image image_id) w)) = 404
  ∧ final (run env (delete_image image_id) w) = w
  ∧ trace (run env (delete_image image_id) w) = [].
Proof.
  intros Hrows. by rewrite delete_image_run, Hrows.
Qed.

(** ** Annotations *)

(** C8: [get_annotations] never raises.  It returns the empty list
    when no annotation row has the [image_id], and otherwise the
    [data] of the row found, as stored; the store is left as it was. *)
Theorem get_annotations_data_or_empty env image_id (w : World) :
  returned (run env (get_annotations image_id) w)
    = Ok match annotation_rows w image_id with
         | [] => []
         | annotation :: _ => Annotation.data annotation
         end
  ∧ final (run env (get_annotations image_id) w) = w.
Proof.
  by rewrite get_annotations_run.
Qed.

Lemma updated_annotations_image_id env existing data (l : list (Annotation.t Elem)) :
  Annotation.image_id <$> updated_annotations env existing data l
  = Annotation.image_id <$> l.
Proof.
  unfold updated_annotations.
  induction l as [|r l IH]; [done|].
  rewrite !fmap_cons, IH. f_equal. by case_bool_decide.
Qed.

Lemma updated_annotations_filter env existing data k (l : list (Annotation.t Elem)) :
  filter (λ r, Annotation.image_id r = k) (updated_annotations env existing data l)
  = updated_annotations env existing data (filter (λ r, Annotation.image_id r = k) l).
Proof.
  unfold updated_annotations.
  induction l as [|r l IH]; [done|].
  rewrite fmap_cons, !filter_cons, IH.
  destruct (bool_decide (Annotation.id r = Annotation.id existing)) eqn:Hid; cbn;
    destruct (decide (Annotation.image_id r = k)); cbn; by rewrite ?Hid.
Qed.

(** With at most one row per image, the rows of one image are none or
    one. *)
Lemma annotation_rows_at_most_one (w : World) k :
  one_annotation_per_image w →
  annotation_rows w k = [] ∨ ∃ r, annotation_rows w k = [r].
Proof.
  unfold one_annotation_per_image, annotation_rows.
  induction (annotations (database w)) as [|r l IH]; [by left|].
  rewrite fmap_cons, NoDup_cons, filter_cons. intros [Hr Hl].
  destruct (decide (Annotation.image_id r = k)) as [<-|]; [|by apply IH].
  right. exists r. f_equal.
  destruct (filter _ l) as [|r' ?] eqn:Hf; [done|]. exfalso. apply Hr.
  assert (r' ∈ filter (λ r0, Annotation.image_id r0 = Annotation.image_id r) l) as Hin
    by (rewrite Hf; left).
  apply list_elem_of_filter in Hin as [<- Hin].
  by apply list_elem_of_fmap_2.
Qed.
Lemma save_annotations_images env image_id data (w : World) :
  images (database (final (run env (save_annotations jsonb is_equal image_id data) w)))
    = images (database w)
  ∧ images_id_seq
      (database (final (run env (save_annotations jsonb is_equal image_id data) w)))
    = images_id_seq (database w)
  ∧ bucket (final (run env (save_annotations jsonb is_equal image_id data) w)) = bucket w
  ∧ trace (run env (save_annotations jsonb is_equal image_id data) w) = [].
Proof.
  rewrite save_annotations_run.
  destruct (head (annotation_rows w image_id)) as [existing|]; cbn.
  - destruct (is_equal data (Annotation.data existing)); [done|]. by destruct (jsonb data).
  - destruct (jsonb data); [|done]. by repeat case_bool_decide.
Qed.

(** The annotation rows of an image after a [save_annotations] of a
    payload the column takes, the image being there. *)
Lemma save_annotations_rows env image_id data stored (w : World) :
  image_rows w image_id ≠ [] →
  in_integer image_id →
  jsonb data = Some stored →
  returned (run env (save_annotations jsonb is_equal image_id data) w) = Ok saved
  ∧ annotation_rows (final (run env (save_annotations jsonb is_equal image_id data) w))
      image_id
    = match annotation_rows w image_id with
      | [] => [Annotation.mk (annotations_id_seq (database w)) image_id stored (now env)]
      | existing :: rest =>
          if is_equal data (Annotation.data existing) then existing :: rest
          else updated_annotations env existing stored (existing :: rest)
      end.
Proof.
  intros Himg Hint Hstored. rewrite save_annotations_run, Hstored.
  destruct (annotation_rows w image_id) as [|existing rest] eqn:Hann; cbn.
  - rewrite !bool_decide_eq_true_2 by done. cbn. split; [done|].
    unfold annotation_rows in *. cbn. rewrite filter_app, Hann.
    rewrite filter_cons, decide_True by done. done.
  - unfold annotation_rows in *.
    destruct (is_equal data (Annotation.data existing)); cbn; [done|].
    by rewrite updated_annotations_filter, Hann.
Qed.



(** ** One annotation row per image *)

Lemma step_one_annotation_per_image env r (w : World) :
  one_annotation_per_image w →
  one_annotation_per_image (step get_public_url jsonb is_equal env r w).
Proof.
  unfold one_annotation_per_image. intros Hone.
  destruct r as [skip limit|file|image_id|image_id|image_id data]; cbn [step].
  - by rewrite get_images_run.
  - rewrite upload_image_run. by destruct (upload_failure env).
  - rewrite delete_image_run. destruct (head (image_rows w image_id)); [|done]. cbn.
    apply (sublist_NoDup _ _ Hone), fmap_sublist, sublist_filter.
  - by rewrite get_annotations_run.
  - rewrite save_annotations_run.
    destruct (head (annotation_rows w image_id)) as [existing|] eqn:Hhd; cbn.
    + destruct (is_equal data (Annotation.data existing)); [done|].
      destruct (jsonb data); [|done]. cbn.
      by rewrite updated_annotations_image_id.
    + destruct (jsonb data); [|done].
      case_bool_decide; [|done]. case_bool_decide; [|done]. cbn.
      rewrite fmap_app. apply NoDup_app. split; [done|].
      split; [|apply NoDup_singleton].
      intros k Hk ->%list_elem_of_singleton. cbn in Hk.
      apply list_elem_of_fmap in Hk as (r & Hr & Hin).
      unfold annotation_rows in Hhd.
      destruct (filter _ (annotations (database w))) eqn:Hf; [|done].
      by apply (filter_nil_not_elem_of _ _ _ Hf (eq_sym Hr)).
Qed.

(** C7: each of the five handlers keeps "at most one annotation row
    per image": from a store where it holds they leave a store where
    it holds. *)
Theorem handlers_keep_one_annotation_per_image env (w : World) :
  one_annotation_per_image w →
  (∀ skip limit, one_annotation_per_image (final (run env (get_images skip limit) w)))
  ∧ (∀ file, one_annotation_per_image (final (run env (upload_image get_public_url file) w)))
  ∧ (∀ image_id, one_annotation_per_image (final (run env (delete_image image_id) w)))
  ∧ (∀ image_id, one_annotation_per_image (final (run env (get_annotations image_id) w)))
  ∧ (∀ image_id data,
       one_annotation_per_image
         (final (run env (save_annotations jsonb is_equal image_id data) w))).
Proof.
  intros Hone. repeat split; intros.
  - by apply (step_one_annotation_per_image env (GetImages skip limit)).
  - by apply (step_one_annotation_per_image env (UploadImage file)).
  - by apply (step_one_annotation_per_image env (DeleteImage image_id)).
  - by apply (step_one_annotation_per_image env (GetAnnotations image_id)).
  - by apply (step_one_annotation_per_image env (SaveAnnotations image_id data)).
Qed.

(** So every store the service can be in has at most one annotation
    row per image. *)
Lemma reachable_one_annotation_per_image (w : World) :
  reachable get_public_url jsonb is_equal w → one_annotation_per_image w.
Proof.
  induction 1 as [|env r w _ IH].
  - apply NoDup_nil_2.
  - by apply step_one_annotation_per_image.
Qed.
(** ** Listing *)

#[local] Instance scan_order_transitive env : Transitive (scan_order env).
Proof. unfold scan_order. intros a b c. lia. Qed.

#[local] Instance scan_order_total env : Total (scan_order env).
Proof. unfold scan_order. intros a b. lia. Qed.

Lemma StronglySorted_sublist {A} (R : relation A) (l1 l2 : list A) :
  l1 `sublist_of` l2 → StronglySorted R l2 → StronglySorted R l1.
Proof.
  induction 1 as [|x l1 l2 Hsub IH|x l1 l2 Hsub IH]; intros Hs; [done|..].
  - apply StronglySorted_inv in Hs as [Hs Hall]. constructor; [by apply IH|].
    eapply Forall_forall. intros y Hy. eapply Forall_forall in Hall; [done|].
    by eapply elem_of_sublist.
  - apply StronglySorted_inv in Hs as [Hs _]. by apply IH.
Qed.

Lemma StronglySorted_weaken {A} (R R' : relation A) (l : list A) :
  (∀ a b, R a b → R' a b) → StronglySorted R l → StronglySorted R' l.
Proof.
  intros Himpl. induction 1 as [|x l Hs IH Hall]; constructor; [done|].
  eapply Forall_impl; [done|]. intros y. apply Himpl.
Qed.

(** Whatever the engine makes of ties, its order is newest first. *)
Lemma merge_sort_descending env (l : list Image.t) :
  descending (merge_sort (scan_order env) l).
Proof.
  apply (StronglySorted_weaken (scan_order env)).
  - unfold scan_order, newer_first. intros a b. lia.
  - apply StronglySorted_merge_sort; apply _.
Qed.

(** Without ties the order is strict. *)
Lemma descending_strictly (l : list Image.t) :
  descending l → NoDup (Image.created_at <$> l) → strictly_descending l.
Proof.
  unfold descending, strictly_descending.
  induction 1 as [|x l Hs IH Hall]; [constructor|].
  rewrite fmap_cons, NoDup_cons. intros [Hx Hl]. constructor; [by apply IH|].
  eapply Forall_forall. intros y Hy. eapply Forall_forall in Hall; [|done].
  unfold newer_first in Hall. unfold newer_strictly.
  assert (Image.created_at y ≠ Image.created_at x); [|lia].
  intros Heq. apply Hx. rewrite <-Heq. by apply list_elem_of_fmap_2.
Qed.

Lemma page_of_sublist env (w : World) skip limit :
  page_of env w skip limit `sublist_of` merge_sort (scan_order env) (images (database w)).
Proof. unfold page_of. etrans; [apply sublist_take|apply sublist_drop]. Qed.

Lemma get_images_within_bounds env skip limit (w : World) :
  0 ≤ skip → skip < 9223372036854775808 →
  0 ≤ limit → limit < 9223372036854775808 →
  returned (run env (get_images skip limit) w) = Ok (page_of env w skip limit).
Proof.
  intros. rewrite get_images_run. cbn -[String.append].
  rewrite (bool_decide_eq_false_2 (¬ _)) by (unfold in_bigint; lia).
  by rewrite !bool_decide_eq_false_2 by lia.
Qed.

(** C9, as the code has it: for [skip] and [limit] that are not
    negative and lie within the engine's BIGINT, [get_images] returns
    the window that drops the first [skip] and keeps at most [limit]
    rows of the table put in descending order of [created_at].  That
    order is not strict where two rows share a timestamp; it is strict
    when no two rows do. *)
Theorem get_images_page env skip limit (w : World) :
  0 ≤ skip → skip < 9223372036854775808 →
  0 ≤ limit → limit < 9223372036854775808 →
  ∃ ordering page,
    returned (run env (get_images skip limit) w) = Ok page
    ∧ ordering ≡ₚ images (database w)
    ∧ descending ordering
    ∧ page = take (Z.to_nat limit) (drop (Z.to_nat skip) ordering)
    ∧ Z.of_nat (length page) ≤ limit
    ∧ descending page
    ∧ (NoDup (Image.created_at <$> images (database w)) → strictly_descending page).
Proof.
  intros Hskip Hskip' Hlimit Hlimit'.
  exists (merge_sort (scan_order env) (images (database w))), (page_of env w skip limit).
  split; [by apply get_images_within_bounds|].
  pose proof (page_of_sublist env w skip limit) as Hsub.
  pose proof (merge_sort_descending env (images (database w))) as Hdesc.
  split; [apply merge_sort_Permutation|].
  split; [done|]. split; [done|].
  split; [unfold page_of; rewrite length_take; lia|].
  split; [by eapply StronglySorted_sublist|].
  intros Hnodup. apply descending_strictly; [by eapply StronglySorted_sublist|].
  eapply sublist_NoDup; [|by apply fmap_sublist].
  by rewrite merge_sort_Permutation.
Qed.
End Properties.

(** ** The theorems at concrete requests *)

Lemma w_tie_reachable : reachable url_of jsonb_column python_eq w_tie.
Proof. repeat apply reachable_step. apply reachable_empty. Qed.

Lemma upload_write_failure_witness :
  upload_failure env_upload_fails = Some "503 Service Unavailable"%string
  ∧ returned (run env_upload_fails (upload_image url_of dog_jpg) w_cat_rect)
    = Raise (HTTPException 500 "Supabase Upload Failed: 503 Service Unavailable")
  ∧ final (run env_upload_fails (upload_image url_of dog_jpg) w_cat_rect) = w_cat_rect.
Proof.
  split; [reflexivity|].
  destruct (upload_write_failure_leaves_store url_of env_upload_fails dog_jpg w_cat_rect
              "503 Service Unavailable" eq_refl) as (Hret & _ & Hfinal & _).
  split; [exact Hret|exact Hfinal].
Defined.

Lemma upload_filename_without_dot_witness :
  contains dot (UploadFile.filename readme) = false
  ∧ ∃ image,
      returned (run env0 (upload_image url_of readme) (@empty_world shape)) = Ok image
      ∧ Image.storage_path image = "0f8fad5b-d9cb-469f-a165-70867728950e.README"%string.
Proof.
  split; [reflexivity|].
  destruct (upload_filename_without_dot url_of env0 readme (@empty_world shape) eq_refl)
    as (_ & _ & _ & Hok).
  destruct (Hok eq_refl) as (image & Hret & Hpath & _).
  exists image. split; [exact Hret|exact Hpath].
Defined.

Lemma delete_removes_witness :
  image_rows w_cat_rect 1 ≠ []
  ∧ returned (run env0 (delete_image 1) w_cat_rect) = Ok deleted
  ∧ image_rows (final (run env0 (delete_image 1) w_cat_rect)) 1 = []
  ∧ annotation_rows (final (run env0 (delete_image 1) w_cat_rect)) 1 = [].
Proof.
  assert (image_rows w_cat_rect 1 ≠ []) as Hrow by (vm_compute; discriminate).
  split; [exact Hrow|].
  exact (delete_removes_image_and_annotations env0 1 w_cat_rect Hrow).
Defined.

Lemma delete_survives_storage_failure_witness :
  image_rows w_cat_rect 1 ≠ []
  ∧ remove_failure env_remove_fails = Some "503 Service Unavailable"%string
  ∧ returned (run env_remove_fails (delete_image 1) w_cat_rect) = Ok deleted
  ∧ annotation_rows (final (run env_remove_fails (delete_image 1) w_cat_rect)) 1 = []
  ∧ bucket (final (run env_remove_fails (delete_image 1) w_cat_rect)) = bucket w_cat_rect.
Proof.
  assert (image_rows w_cat_rect 1 ≠ []) as Hrow by (vm_compute; discriminate).
  split; [exact Hrow|]. split; [reflexivity|].
  destruct (delete_survives_storage_failure env_remove_fails 1 w_cat_rect
              "503 Service Unavailable" Hrow eq_refl)
    as (Hret & _ & _ & Hann & Hbucket & _).
  split; [exact Hret|]. split; [exact Hann|exact Hbucket].
Defined.

Lemma delete_missing_image_witness :
  image_rows w_cat_rect 2 = []
  ∧ returned (run env0 (delete_image 2) w_cat_rect)
    = Raise (HTTPException 404 "Image not found")
  ∧ final (run env0 (delete_image 2) w_cat_rect) = w_cat_rect
  ∧ trace (run env0 (delete_image 2) w_cat_rect) = [].
Proof.
  split; [reflexivity|].
  destruct (delete_missing_image_not_found env0 2 w_cat_rect eq_refl)
    as (Hret & _ & Hfinal & Htrace).
  split; [exact Hret|]. split; [exact Hfinal|exact Htrace].
Defined.




Lemma w_cat_rect_one_annotation_per_image : one_annotation_per_image w_cat_rect.
Proof. apply NoDup_singleton. Defined.


Lemma handlers_keep_one_annotation_witness :
  one_annotation_per_image w_cat_rect
  ∧ one_annotation_per_image
      (final (run env_last (save_annotations jsonb_column python_eq 1 [circle]) w_cat_rect))
  ∧ annotations
      (database
         (final (run env_last (save_annotations jsonb_column python_eq 1 [circle])
                   w_cat_rect)))
    = [Annotation.mk 1 1 [circle] 40].
Proof.
  split; [exact w_cat_rect_one_annotation_per_image|].
  destruct (handlers_keep_one_annotation_per_image url_of jsonb_column python_eq env_last
              w_cat_rect w_cat_rect_one_annotation_per_image) as (_ & _ & _ & _ & Hsave).
  split; [exact (Hsave 1 [circle])|]. vm_compute. reflexivity.
Defined.

(** C9, as stated, fails on ties: two uploads at the same instant of
    the database clock give two rows with one [created_at], and the
    page that lists both is not strictly descending. *)
Lemma get_images_tie_not_strict :
  reachable url_of jsonb_column python_eq w_tie
  ∧ ∃ page,
      returned (run env_later (get_images 0 2) w_tie) = Ok page
      ∧ length page = 2%nat
      ∧ ¬ strictly_descending page.
Proof.
  split; [exact w_tie_reachable|].
  eexists. split; [vm_compute; reflexivity|]. split; [reflexivity|].
  intros Hs. apply StronglySorted_inv in Hs as [_ Hall].
  apply Forall_cons in Hall as [Hlt _]. vm_compute in Hlt. discriminate Hlt.
Qed.

Lemma w_three_no_ties : NoDup (Image.created_at <$> images (database w_three)).
Proof.
  change (NoDup [10; 20; 40]). apply (bool_decide_unpack _). vm_compute. exact I.
Defined.

Lemma get_images_page_witness :
  0 ≤ 1 ∧ 1 < 9223372036854775808 ∧ 0 ≤ 2 ∧ 2 < 9223372036854775808
  ∧ ∃ ordering page,
      returned (run env_reversed (get_images 1 2) w_three) = Ok page
      ∧ ordering ≡ₚ images (database w_three)
      ∧ page = take 2 (drop 1 ordering)
      ∧ Image.id <$> page = [2; 1]
      ∧ strictly_descending page.
Proof.
  assert (0 ≤ 1) as H1 by lia. assert (1 < 9223372036854775808) as H1' by lia.
  assert (0 ≤ 2) as H2 by lia. assert (2 < 9223372036854775808) as H2' by lia.
  split; [exact H1|]. split; [exact H1'|]. split; [exact H2|]. split; [exact H2'|].
  destruct (get_images_page env_reversed 1 2 w_three H1 H1' H2 H2')
    as (ordering & page & Hret & Hperm & _ & Hpage & _ & _ & Hstrict).
  exists ordering, page. split; [exact Hret|]. split; [exact Hperm|].
  split; [exact Hpage|]. split; [|exact (Hstrict w_three_no_ties)].
  vm_compute in Hret. injection Hret as <-. reflexivity.
Defined.

(** ** A session from upload to delete *)

(** Upload an image, annotate it, read the annotations back, delete the
    image: the annotations are gone and the listing is empty again. *)
Example upload_save_get_delete :
  returned (run env_later (get_annotations 1) w_cat_rect) = Ok [rect]
  ∧ returned (run env_later (delete_image 1) w_cat_rect) = Ok deleted
  ∧ returned (run env_later (get_annotations 1)
                (final (run env_later (delete_image 1) w_cat_rect))) = Ok []
  ∧ returned (run env_later (get_images 0 100)
                (final (run env_later (delete_image 1) w_cat_rect))) = Ok []
  ∧ bucket (final (run env_later (delete_image 1) w_cat_rect)) = ∅.
Proof.
  repeat split; vm_compute; reflexivity.
Qed.

(** ** The store at work *)

(** Data that [==] takes for equal to the data held is not written:
    after [{"x": 1}], saving [{"x": true}] leaves [{"x": 1}] and the
    [updated_at] of the first save. *)
Example equal_data_is_not_rewritten :
  annotations
    (database
       (service env_last (SaveAnnotations 1 [x_is_true])
          (service env_later (SaveAnnotations 1 [x_is_one]) w_cat)))
  = [Annotation.mk 1 1 [x_is_one] 20].
Proof. vm_compute. reflexivity. Qed.

(** A string that holds U+0000 is refused by the column, with the
    image there: the request fails and nothing is stored. *)
Example nul_is_refused :
  returned (run env_later (save_annotations jsonb_column python_eq 1 [x_is_nul]) w_cat)
    = Raise (DataError "invalid input for type jsonb")
  ∧ final (run env_later (save_annotations jsonb_column python_eq 1 [x_is_nul]) w_cat)
    = w_cat.
Proof. split; vm_compute; reflexivity. Qed.

(** The id a failed INSERT drew is not issued again: after a save for
    a missing image, the first row stored gets id 2. *)
Example failed_insert_costs_an_id :
  Annotation.id <$>
    annotations
      (database
         (service env_last (SaveAnnotations 1 [rect])
            (service env_later (SaveAnnotations 7 [rect]) w_cat)))
  = [2].
Proof. vm_compute. reflexivity. Qed.

(** Outside INTEGER the engine refuses the id before it looks for the
    image; outside BIGINT it refuses the limit. *)
Example out_of_range :
  returned (run env_later (save_annotations jsonb_column python_eq 2147483648 [rect]) w_cat)
    = Raise (DataError "integer out of range")
  ∧ returned (run env_later (get_images 0 9223372036854775808) w_tie)
    = Raise (DataError "bigint out of range").
Proof. split; vm_compute; reflexivity. Qed.

(** Two engines may return tied rows in different orders. *)
Example ties_as_the_engine_ranks :
  Image.id <$> page_of env_last w_tie 0 2 = [1; 2]
  ∧ Image.id <$> page_of env_reversed w_tie 0 2 = [2; 1].
Proof. split; vm_compute; reflexivity. Qed.

(** ** More of the handlers' behaviour *)

(** *** The extension [upload_image] derives *)

Lemma split_singleton sep s w : split sep s = [w] → contains sep s = false.
Proof.
  revert w. induction s as [|c s IH]; intros w; cbn [split contains]; [done|].
  destruct (Ascii.eqb c sep) eqn:Hc.
  - intros Heq. pose proof (split_nonempty sep s) as Hne.
    destruct (split sep s); [done|discriminate Heq].
  - destruct (split sep s) as [|w' ws] eqn:Hs; [by apply split_nonempty in Hs|].
    intros Heq. assert (ws = []) as -> by congruence. cbn. by apply (IH w').
Qed.

(** The last piece of a split holds no separator; it is the whole
    string when the string holds none, and otherwise what follows the
    last separator. *)
Lemma split_last_suffix sep s :
  ∃ ext,
    last (split sep s) = Some ext
    ∧ contains sep ext = false
    ∧ (contains sep s = true → ∃ stem, s = stem +:+ String sep ext)
    ∧ (contains sep s = false → ext = s).
Proof.
  induction s as [|c s (ext & Hlast & Hext & Hsuffix & Hwhole)].
  { exists EmptyString. by repeat split. }
  cbn [split contains]. destruct (Ascii.eqb c sep) eqn:Hc.
  - apply Ascii.eqb_eq in Hc as ->. exists ext.
    rewrite last_cons, Hlast. repeat split; [done| |done].
    intros _. destruct (contains sep s) eqn:Hs.
    + destruct (Hsuffix eq_refl) as [stem ->]. by exists (String sep stem).
    + rewrite (Hwhole eq_refl). by exists EmptyString.
  - destruct (split sep s) as [|w ws] eqn:Hsplit; [by apply split_nonempty in Hsplit|].
    rewrite last_cons in Hlast. rewrite last_cons. cbn [orb].
    destruct (last ws) as [y|] eqn:Hws.
    + exists ext. repeat split; [done|done| |].
      * intros Hs. destruct (Hsuffix Hs) as [stem ->]. by exists (String c stem).
      * intros Hs. apply (split_without_sep sep) in Hs as Hone.
        rewrite Hone in Hsplit. by simplify_eq.
    + apply last_None in Hws as ->. simplify_eq.
      pose proof (split_singleton _ _ _ Hsplit) as Hnone.
      exists (String c ext). repeat split.
      * cbn [contains]. by rewrite Hc.
      * intros Hs. congruence.
      * intros _. by rewrite (Hwhole Hnone).
Qed.

Lemma delete_removes_image_and_annotations_rows {Elem} env image_id (w : World Elem) :
  image_rows w image_id ≠ [] →
  image_rows (final (run env (delete_image image_id) w)) image_id = []
  ∧ annotation_rows (final (run env (delete_image image_id) w)) image_id = [].
Proof.
  intros Hrow. rewrite delete_image_run.
  destruct (image_rows w image_id) as [|image rest] eqn:Hrows; [done|]. cbn.
  unfold image_rows, annotation_rows. cbn.
  split; [apply (filter_filter_neg (λ r, Image.id r = image_id))|].
  apply (filter_filter_neg (λ r, Annotation.image_id r = image_id)).
Qed.

Section Behaviour.
Context {Elem : Type}.
Variable get_public_url : string → string.
Variable jsonb : list Elem → option (list Elem).
Variable is_equal : list Elem → list Elem → bool.

Local Abbreviation World := (World Elem).

(** X2: for every filename the extension derivation succeeds.  The
    path handed to the storage client is the drawn UUID, ".", and an
    extension that holds no "."; when the filename holds a "." the
    extension is what follows its last ".". *)
Theorem upload_extension_of_any_filename env file (w : World) :
  ∃ ext,
    file_path_of env file = uuid4 env +:+ "." +:+ ext
    ∧ contains dot ext = false
    ∧ (contains dot (UploadFile.filename file) = true →
       ∃ stem, UploadFile.filename file = stem +:+ "." +:+ ext)
    ∧ returned (run env (upload_image get_public_url file) w) ≠ Raise IndexError
    ∧ head (trace (run env (upload_image get_public_url file) w))
      = Some (StorageUpload (uuid4 env +:+ "." +:+ ext) (UploadFile.content_type file)).
Proof.
  destruct (split_last_suffix dot (UploadFile.filename file))
    as (ext & Hlast & Hext & Hsuffix & _).
  assert (file_path_of env file = uuid4 env +:+ "." +:+ ext) as Hpath.
  { unfold file_path_of, file_ext_of. by rewrite Hlast. }
  exists ext. rewrite upload_image_run, <-Hpath.
  split; [done|]. split; [done|]. split; [|split].
  - intros Hdot. destruct (Hsuffix Hdot) as [stem Hstem]. by exists stem.
  - by destruct (upload_failure env).
  - by destruct (upload_failure env).
Qed.


(** *** Failure *)



(** *** Delete *)

Lemma filter_other_key {A} (key : A → Z) (k k' : Z) (l : list A) :
  k ≠ k' →
  filter (λ r, key r = k) (filter (λ r, key r ≠ k') l) = filter (λ r, key r = k) l.
Proof.
  intros Hk. induction l as [|r l IH]; [done|].
  rewrite (filter_cons (λ r, key r ≠ k')), (filter_cons (λ r, key r = k) r l).
  destruct (decide (key r ≠ k')) as [Hr|Hr].
  - rewrite filter_cons, IH. done.
  - rewrite IH. destruct (decide (key r = k)); [|done]. exfalso. apply Hr. congruence.
Qed.


(** X6: [delete_image] touches nothing but the image: the image rows
    and annotation rows of every other id, and both sequences, are as
    before, and the bucket is as before at every path but the image's
    [storage_path]. *)
Theorem delete_image_leaves_the_rest env image_id k (w : World) :
  k ≠ image_id →
  image_rows (final (run env (delete_image image_id) w)) k = image_rows w k
  ∧ annotation_rows (final (run env (delete_image image_id) w)) k = annotation_rows w k
  ∧ images_id_seq (database (final (run env (delete_image image_id) w)))
    = images_id_seq (database w)
  ∧ annotations_id_seq (database (final (run env (delete_image image_id) w)))
    = annotations_id_seq (database w)
  ∧ ∀ path,
      (∀ image, head (image_rows w image_id) = Some image →
                path ≠ Image.storage_path image) →
      bucket (final (run env (delete_image image_id) w)) !! path = bucket w !! path.
Proof.
  intros Hk. rewrite delete_image_run.
  destruct (head (image_rows w image_id)) as [image|] eqn:Himg; [|done].
  unfold image_rows, annotation_rows. cbn.
  split; [by apply filter_other_key|]. split; [by apply filter_other_key|].
  split; [done|]. split; [done|].
  intros path Hpath. destruct (remove_failure env); [done|].
  apply lookup_delete_ne. intros Heq. by apply (Hpath image).
Qed.

(** X7: a second [delete_image] of the same id answers 404, whatever
    the first one did. *)
Theorem delete_image_twice env env' image_id (w : World) :
  returned (run env' (delete_image image_id)
              (final (run env (delete_image image_id) w)))
  = Raise (HTTPException 404 "Image not found").
Proof.
  rewrite (delete_image_run env'), (delete_image_run env).
  destruct (head (image_rows w image_id)) as [image|] eqn:Himg; cbn.
  - unfold image_rows. cbn.
    by rewrite (filter_filter_neg (λ r, Image.id r = image_id)).
  - by rewrite Himg.
Qed.

Lemma page_of_elem_of env (w : World) skip limit r :
  r ∈ page_of env w skip limit → r ∈ images (database w).
Proof.
  intros Hr. rewrite <-(merge_sort_Permutation (scan_order env)).
  eapply elem_of_sublist; [done|]. unfold page_of.
  etrans; [apply sublist_take|apply sublist_drop].
Qed.

(** X8: once [delete_image] has deleted an image, [get_annotations]
    for its id returns the empty list and no page of [get_images]
    shows a row with its id. *)
Theorem deleted_image_is_gone env env' image_id (w : World) :
  image_rows w image_id ≠ [] →
  returned (run env' (get_annotations image_id)
              (final (run env (delete_image image_id) w))) = Ok []
  ∧ ∀ skip limit page,
      returned (run env' (get_images skip limit)
                  (final (run env (delete_image image_id) w))) = Ok page →
      ∀ r, r ∈ page → Image.id r ≠ image_id.
Proof.
  intros Hrow.
  destruct (delete_removes_image_and_annotations_rows env image_id w Hrow) as [Himg Hann].
  split.
  - rewrite get_annotations_run. cbn. by rewrite Hann.
  - intros skip limit page. rewrite get_images_run. cbn -[String.append].
    repeat case_bool_decide; intros Hpage; simplify_eq.
    intros r Hr%page_of_elem_of Hid.
    assert (r ∈ image_rows (final (run env (delete_image image_id) w)) image_id) as Hin
      by (by apply list_elem_of_filter).
    rewrite Himg in Hin. by apply not_elem_of_nil in Hin.
Qed.

(** *** Save *)

(** X9: with no image row and no annotation row for the id (an
    INTEGER) and a payload the column takes, [save_annotations] breaks
    the foreign key: the request ends in the integrity error (a 500),
    nothing is stored, the storage client is not called.  The store is
    as before but for the id the annotations sequence issued for the
    row that was refused. *)
Theorem save_annotations_without_image env image_id data stored (w : World) :
  image_rows w image_id = [] →
  annotation_rows w image_id = [] →
  in_integer image_id →
  jsonb data = Some stored →
  returned (run env (save_annotations jsonb is_equal image_id data) w)
    = Raise (IntegrityError "annotations_image_id_fkey")
  ∧ status_code_of (returned (run env (save_annotations jsonb is_equal image_id data) w))
    = 500
  ∧ final (run env (save_annotations jsonb is_equal image_id data) w)
    = annotation_id_lost w
  ∧ trace (run env (save_annotations jsonb is_equal image_id data) w) = [].
Proof.
  intros Himg Hann Hint Hstored.
  rewrite save_annotations_run, Hann, Himg, Hstored. cbn.
  by rewrite bool_decide_eq_true_2.
Qed.

(** X10: the last save wins, up to [==].  For an image that is there,
    whatever a first save did, after a second save of data the column
    takes [get_annotations] returns what the column holds for the data
    of the second save, or data that [==] takes for equal to it. *)
Theorem save_annotations_last_wins env1 env2 env3 image_id data1 data2 stored2
    (w : World) :
  image_rows w image_id ≠ [] →
  in_integer image_id →
  jsonb data2 = Some stored2 →
  ∃ got,
    returned (run env3 (get_annotations image_id)
                (final (run env2 (save_annotations jsonb is_equal image_id data2)
                          (final (run env1 (save_annotations jsonb is_equal image_id data1)
                                    w)))))
      = Ok got
    ∧ (got = stored2 ∨ is_equal data2 got = true).
Proof.
  intros Himg Hint Hstored.
  assert (image_rows
            (final (run env1 (save_annotations jsonb is_equal image_id data1) w)) image_id
          ≠ []) as Himg1.
  { unfold image_rows.
    by destruct (save_annotations_images jsonb is_equal env1 image_id data1 w) as [-> _]. }
  destruct (save_annotations_rows jsonb is_equal env2 image_id data2 stored2 _
              Himg1 Hint Hstored) as [_ Hrows].
  rewrite get_annotations_run. cbn. rewrite Hrows. clear Hrows.
  destruct (annotation_rows _ image_id) as [|existing rest].
  { eexists. split; [done|]. by left. }
  destruct (is_equal data2 (Annotation.data existing)) eqn:Heq.
  - eexists. split; [done|]. by right.
  - cbn. rewrite bool_decide_eq_true_2 by done. eexists. split; [done|]. by left.
Qed.

Lemma NoDup_fmap_eq {A B} (f : A → B) (l : list A) x y :
  NoDup (f <$> l) → x ∈ l → y ∈ l → f x = f y → x = y.
Proof.
  induction l as [|z l IH]; [by intros _ ?%not_elem_of_nil|].
  rewrite fmap_cons, NoDup_cons. intros [Hz Hl] Hx Hy Hf.
  apply elem_of_cons in Hx as [->|Hx]; apply elem_of_cons in Hy as [->|Hy].
  - done.
  - exfalso. apply Hz. rewrite Hf. by apply list_elem_of_fmap_2.
  - exfalso. apply Hz. rewrite <-Hf. by apply list_elem_of_fmap_2.
  - by apply IH.
Qed.

(** X11: [save_annotations] touches nothing but the annotation of its
    image: where annotation ids identify their rows, the annotation
    rows of every other image are as before, and so are the image
    table, its sequence and the bucket; the storage client is not
    called. *)
Theorem save_annotations_leaves_the_rest env image_id data k (w : World) :
  NoDup (Annotation.id <$> annotations (database w)) →
  k ≠ image_id →
  annotation_rows (final (run env (save_annotations jsonb is_equal image_id data) w)) k
    = annotation_rows w k
  ∧ images (database (final (run env (save_annotations jsonb is_equal image_id data) w)))
    = images (database w)
  ∧ images_id_seq
      (database (final (run env (save_annotations jsonb is_equal image_id data) w)))
    = images_id_seq (database w)
  ∧ bucket (final (run env (save_annotations jsonb is_equal image_id data) w)) = bucket w
  ∧ trace (run env (save_annotations jsonb is_equal image_id data) w) = [].
Proof.
  intros Hids Hk. split; [|apply save_annotations_images].
  rewrite save_annotations_run. unfold annotation_rows.
  destruct (head (filter (λ r, Annotation.image_id r = image_id) (annotations (database w))))
    as [existing|] eqn:Hhd; cbn.
  - destruct (is_equal data (Annotation.data existing)); [done|].
    destruct (jsonb data) as [stored|]; [|done]. cbn.
    rewrite updated_annotations_filter. unfold updated_annotations.
    rewrite <-(list_fmap_id (filter _ (annotations (database w)))) at 2.
    apply list_fmap_ext. intros i r Hr. case_bool_decide as Hid; [|done]. exfalso.
    apply list_elem_of_lookup_2, list_elem_of_filter in Hr as [Hrk Hr].
    apply head_Some_elem_of, list_elem_of_filter in Hhd as [He Hexisting].
    assert (r = existing) as -> by (by eapply NoDup_fmap_eq). congruence.
  - destruct (jsonb data) as [stored|]; [|done].
    case_bool_decide; [|done]. case_bool_decide; [|done]. cbn.
    rewrite filter_app, filter_cons, decide_False by (cbn; congruence).
    by rewrite filter_nil, app_nil_r.
Qed.

Lemma updated_annotations_id env existing data (l : list (Annotation.t Elem)) :
  Annotation.id <$> updated_annotations env existing data l = Annotation.id <$> l.
Proof.
  unfold updated_annotations.
  induction l as [|r l IH]; [done|].
  rewrite !fmap_cons, IH. f_equal. by case_bool_decide.
Qed.

(** X12: [save_annotations] is an upsert.  Over an existing annotation
    row it updates in place: the rows keep their ids and their images,
    none is added and the sequence is not drawn from.  With no row yet,
    the image there (its id an INTEGER) and a payload the column takes,
    it appends one row, with the next id of the sequence, the image id,
    what the column holds for the data, and the database clock. *)
Theorem save_annotations_upserts env image_id data (w : World) :
  (annotation_rows w image_id ≠ [] →
   Annotation.id <$>
     annotations
       (database (final (run env (save_annotations jsonb is_equal image_id data) w)))
     = Annotation.id <$> annotations (database w)
   ∧ Annotation.image_id <$>
       annotations
         (database (final (run env (save_annotations jsonb is_equal image_id data) w)))
     = Annotation.image_id <$> annotations (database w)
   ∧ annotations_id_seq
       (database (final (run env (save_annotations jsonb is_equal image_id data) w)))
     = annotations_id_seq (database w))
  ∧ (∀ stored,
       annotation_rows w image_id = [] →
       image_rows w image_id ≠ [] →
       in_integer image_id →
       jsonb data = Some stored →
       annotations
         (database (final (run env (save_annotations jsonb is_equal image_id data) w)))
         = annotations (database w)
           ++ [Annotation.mk (annotations_id_seq (database w)) image_id stored (now env)]
       ∧ annotations_id_seq
           (database (final (run env (save_annotations jsonb is_equal image_id data) w)))
         = annotations_id_seq (database w) + 1).
Proof.
  rewrite save_annotations_run.
  destruct (annotation_rows w image_id) as [|existing rest] eqn:Hann; cbn.
  - split; [done|]. intros stored _ Himg Hint ->.
    by rewrite !bool_decide_eq_true_2.
  - split; [|done]. intros _.
    destruct (is_equal data (Annotation.data existing)); [done|].
    destruct (jsonb data); [|done]. cbn.
    by rewrite updated_annotations_id, updated_annotations_image_id.
Qed.

(** *** Listing *)

Lemma get_images_returns env skip limit (w : World) page :
  returned (run env (get_images skip limit) w) = Ok page →
  0 ≤ skip ∧ skip < 9223372036854775808
  ∧ 0 ≤ limit ∧ limit < 9223372036854775808
  ∧ page = page_of env w skip limit.
Proof.
  rewrite get_images_run. cbn -[String.append]. unfold in_bigint.
  repeat case_bool_decide; intros Hpage; simplify_eq.
  repeat split; try lia.
Qed.

(** Where no two rows share a [created_at] every engine returns the
    rows in one order. *)
Lemma ordering_without_ties env env' (l : list Image.t) :
  NoDup (Image.created_at <$> l) →
  merge_sort (scan_order env) l = merge_sort (scan_order env') l.
Proof.
  intros Hnodup.
  apply (StronglySorted_unique_strong newer_first);
    [|apply merge_sort_descending..|by rewrite !merge_sort_Permutation].
  intros x1 x2 Hx1 Hx2 H12 H21. unfold newer_first in *.
  rewrite merge_sort_Permutation in Hx1, Hx2.
  apply (NoDup_fmap_eq Image.created_at l); [done..|lia].
Qed.

(** X13: pages tile.  Over one store in which no two rows share a
    [created_at], a page of [n] rows from [skip] followed by the page
    of [m] rows from [skip + n] is the page of [n + m] rows from
    [skip], when the engine takes that limit: paging through the
    listing shows no row twice and skips none. *)
Theorem get_images_pages_tile env1 env2 env3 skip n m (w : World) page1 page2 :
  NoDup (Image.created_at <$> images (database w)) →
  n + m < 9223372036854775808 →
  returned (run env1 (get_images skip n) w) = Ok page1 →
  returned (run env2 (get_images (skip + n) m) w) = Ok page2 →
  returned (run env3 (get_images skip (n + m)) w) = Ok (page1 ++ page2).
Proof.
  intros Hnodup Hbound
    (Hskip & Hskip' & Hn & _ & ->)%get_images_returns
    (_ & _ & Hm & _ & ->)%get_images_returns.
  rewrite get_images_within_bounds by lia. f_equal. unfold page_of.
  rewrite (ordering_without_ties env1 env3), (ordering_without_ties env2 env3) by done.
  rewrite !Z2Nat.inj_add by lia.
  by rewrite <-take_take_drop, drop_drop.
Qed.

(** X14: a listing from the start with room for every row, the limit
    being one the engine takes, shows every image row exactly once,
    newest first. *)
Theorem get_images_lists_all env limit (w : World) :
  Z.of_nat (length (images (database w))) ≤ limit →
  limit < 9223372036854775808 →
  ∃ page,
    returned (run env (get_images 0 limit) w) = Ok page
    ∧ page ≡ₚ images (database w)
    ∧ descending page.
Proof.
  intros Hlimit Hbound. eexists.
  rewrite get_images_within_bounds by lia. split; [done|]. unfold page_of.
  rewrite drop_0, take_ge by (rewrite merge_sort_Permutation; lia).
  split; [apply merge_sort_Permutation|apply merge_sort_descending].
Qed.

(** X15: for an offset and a limit the engine takes, an offset at or
    past the number of rows, or a limit of zero, gives the empty page,
    not an error. *)
Theorem get_images_past_the_end env skip limit (w : World) :
  0 ≤ skip → skip < 9223372036854775808 →
  0 ≤ limit → limit < 9223372036854775808 →
  limit = 0 ∨ Z.of_nat (length (images (database w))) ≤ skip →
  returned (run env (get_images skip limit) w) = Ok [].
Proof.
  intros Hskip Hskip' Hlimit Hlimit' Hedge.
  rewrite get_images_within_bounds by lia. f_equal. unfold page_of.
  destruct Hedge as [->|Hpast]; [done|].
  rewrite drop_ge by (rewrite merge_sort_Permutation; lia). by rewrite take_nil.
Qed.


(** *** What every reachable store satisfies *)

Lemma NoDup_snoc_fresh (l : list Z) (k : Z) :
  NoDup l → (∀ x, x ∈ l → x < k) → NoDup (l ++ [k]).
Proof.
  intros Hl Hlt. apply NoDup_app. split; [done|]. split; [|apply NoDup_singleton].
  intros x Hx ->%list_elem_of_singleton. apply Hlt in Hx. lia.
Qed.

Lemma step_consistent env r (w : World) :
  consistent w → consistent (step get_public_url jsonb is_equal env r w).
Proof.
  intros [Hi Ha Hui Hua Href]. unfold image_rows in Href.
  destruct r as [skip limit|file|image_id|image_id|image_id data]; cbn [step].
  - rewrite get_images_run. by constructor.
  - rewrite upload_image_run. destruct (upload_failure env); [by constructor|].
    constructor; unfold image_rows; cbn -[String.append]; try done.
    + intros r [Hr| ->%list_elem_of_singleton]%elem_of_app; [apply Hi in Hr|cbn]; lia.
    + rewrite fmap_app. apply NoDup_snoc_fresh; [done|].
      intros x (r & -> & Hr)%list_elem_of_fmap. by apply Hi.
    + intros a Hin. rewrite filter_app. intros [Hnil _]%app_eq_nil. by apply (Href a).
  - rewrite delete_image_run.
    destruct (head (image_rows w image_id)); [|by constructor].
    constructor; unfold image_rows; cbn.
    + intros r [_ Hr]%list_elem_of_filter. by apply Hi.
    + intros a [_ Hin]%list_elem_of_filter. by apply Ha.
    + apply (sublist_NoDup _ _ Hui), fmap_sublist, sublist_filter.
    + apply (sublist_NoDup _ _ Hua), fmap_sublist, sublist_filter.
    + intros a [Hne Hin]%list_elem_of_filter.
      rewrite (filter_other_key Image.id) by done. by apply Href.
  - rewrite get_annotations_run. by constructor.
  - rewrite save_annotations_run.
    destruct (head (annotation_rows w image_id)) as [existing|] eqn:Hhd; cbn.
    + destruct (is_equal data (Annotation.data existing)); [by constructor|].
      destruct (jsonb data) as [stored|]; [|by constructor].
      constructor; unfold image_rows; cbn; try done.
      * intros a' Hin. apply (list_elem_of_fmap_2 Annotation.id) in Hin.
        rewrite updated_annotations_id in Hin.
        apply list_elem_of_fmap in Hin as (a & -> & Hin). by apply Ha.
      * by rewrite updated_annotations_id.
      * intros a' Hin. apply (list_elem_of_fmap_2 Annotation.image_id) in Hin.
        rewrite updated_annotations_image_id in Hin.
        apply list_elem_of_fmap in Hin as (a & -> & Hin). by apply Href.
    + destruct (jsonb data) as [stored|]; [|by constructor].
      case_bool_decide as Hint; [|by constructor].
      case_bool_decide as Himg.
      2:{ constructor; unfold image_rows; cbn; try done.
          intros a Hin. apply Ha in Hin. lia. }
      constructor; unfold image_rows; cbn; try done.
      * intros a [Hin| ->%list_elem_of_singleton]%elem_of_app; [apply Ha in Hin|cbn]; lia.
      * rewrite fmap_app. apply NoDup_snoc_fresh; [done|].
        intros x (a & -> & Hin)%list_elem_of_fmap. by apply Ha.
      * intros a [Hin| ->%list_elem_of_singleton]%elem_of_app; [by apply Href|done].
Qed.

(** X17: every store the service reaches is consistent.  Image ids and
    annotation ids identify their rows and lie below their sequences,
    every annotation row refers to an image row that exists, and no
    image has two annotation rows. *)
Theorem reachable_store_consistent (w : World) :
  reachable get_public_url jsonb is_equal w →
  consistent w ∧ one_annotation_per_image w.
Proof.
  induction 1 as [|env r w _ [IHc IHo]].
  - split; [|apply NoDup_nil_2].
    constructor; unfold image_rows; cbn; try apply NoDup_nil_2.
    all: by intros ? ?%not_elem_of_nil.
  - split; [by apply step_consistent|by apply step_one_annotation_per_image].
Qed.

(** *** Upload, then delete *)

Lemma filter_absent_key {A} (key : A → Z) (k : Z) (l : list A) :
  filter (λ r, key r = k) l = [] → filter (λ r, key r ≠ k) l = l.
Proof.
  induction l as [|r l IH]; [done|].
  rewrite !filter_cons. destruct (decide (key r = k)); [done|].
  intros Hnil. rewrite decide_True by done. by rewrite IH.
Qed.


(** X19: a delete the storage service accepts removes the object: no
    object is left in the bucket at the [storage_path] of the image
    deleted. *)
Theorem delete_image_removes_blob env image_id image (w : World) :
  head (image_rows w image_id) = Some image →
  remove_failure env = None →
  bucket (final (run env (delete_image image_id) w)) !! Image.storage_path image = None
  ∧ trace (run env (delete_image image_id) w) = [StorageRemove [Image.storage_path image]].
Proof.
  intros Himg Hok. rewrite delete_image_run, Himg, Hok. cbn.
  split; [apply lookup_delete_eq|done].
Qed.

End Behaviour.

(** *** These theorems at concrete requests *)





Lemma delete_image_leaves_the_rest_witness :
  2 ≠ 1
  ∧ image_rows (final (run env0 (delete_image 1) w_tie)) 2 = image_rows w_tie 2.
Proof.
  assert (2 ≠ 1) as Hne by (vm_compute; discriminate).
  split; [exact Hne|].
  exact (proj1 (delete_image_leaves_the_rest env0 1 2 w_tie Hne)).
Defined.

Lemma deleted_image_is_gone_witness :
  image_rows w_cat_rect 1 ≠ []
  ∧ returned (run env_later (get_annotations 1)
                (final (run env0 (delete_image 1) w_cat_rect))) = Ok [].
Proof.
  assert (image_rows w_cat_rect 1 ≠ []) as Hrow by (vm_compute; discriminate).
  split; [exact Hrow|].
  exact (proj1 (deleted_image_is_gone env0 env_later 1 w_cat_rect Hrow)).
Defined.

Lemma save_annotations_without_image_witness :
  image_rows w_cat 7 = []
  ∧ annotation_rows w_cat 7 = []
  ∧ in_integer 7
  ∧ jsonb_column [rect] = Some [rect]
  ∧ returned (run env0 (save_annotations jsonb_column python_eq 7 [rect]) w_cat)
    = Raise (IntegrityError "annotations_image_id_fkey")
  ∧ annotations_id_seq
      (database (final (run env0 (save_annotations jsonb_column python_eq 7 [rect]) w_cat)))
    = 2.
Proof.
  assert (in_integer 7) as Hint by (unfold in_integer; lia).
  assert (jsonb_column [rect] = Some [rect]) as Hstored by (vm_compute; reflexivity).
  split; [reflexivity|]. split; [reflexivity|]. split; [exact Hint|]. split; [exact Hstored|].
  destruct (save_annotations_without_image jsonb_column python_eq env0 7 [rect] [rect] w_cat
              eq_refl eq_refl Hint Hstored) as (Hret & _ & Hfinal & _).
  split; [exact Hret|]. rewrite Hfinal. reflexivity.
Defined.

Lemma save_annotations_last_wins_witness :
  image_rows w_cat 1 ≠ []
  ∧ in_integer 1
  ∧ jsonb_column [circle] = Some [circle]
  ∧ returned (run env_last (get_annotations 1)
                (final (run env_last (save_annotations jsonb_column python_eq 1 [circle])
                          (final (run env_later
                                    (save_annotations jsonb_column python_eq 1 [rect])
                                    w_cat)))))
    = Ok [circle].
Proof.
  assert (image_rows w_cat 1 ≠ []) as Hrow by (vm_compute; discriminate).
  assert (in_integer 1) as Hint by (unfold in_integer; lia).
  assert (jsonb_column [circle] = Some [circle]) as Hstored by (vm_compute; reflexivity).
  split; [exact Hrow|]. split; [exact Hint|]. split; [exact Hstored|].
  destruct (save_annotations_last_wins jsonb_column python_eq env_later env_last env_last 1
              [rect] [circle] [circle] w_cat Hrow Hint Hstored) as (got & Hget & _).
  rewrite Hget. vm_compute in Hget. injection Hget as <-. reflexivity.
Defined.

Lemma save_annotations_leaves_the_rest_witness :
  NoDup (Annotation.id <$> annotations (database w_two_annotated))
  ∧ 1 ≠ 2
  ∧ annotation_rows
      (final (run env_reversed (save_annotations jsonb_column python_eq 2 [rect])
                w_two_annotated)) 1
    = annotation_rows w_two_annotated 1
  ∧ annotation_rows
      (final (run env_reversed (save_annotations jsonb_column python_eq 2 [rect])
                w_two_annotated)) 2
    = [Annotation.mk 2 2 [rect] 50].
Proof.
  assert (NoDup (Annotation.id <$> annotations (database w_two_annotated))) as Hids.
  { change (NoDup [1; 2]). apply (bool_decide_unpack _). vm_compute. exact I. }
  assert (1 ≠ 2) as Hne by (vm_compute; discriminate).
  split; [exact Hids|]. split; [exact Hne|].
  split; [|vm_compute; reflexivity].
  exact (proj1 (save_annotations_leaves_the_rest jsonb_column python_eq env_reversed 2
                  [rect] 1 w_two_annotated Hids Hne)).
Defined.

Lemma save_annotations_upserts_witness :
  Annotation.id <$>
    annotations
      (database (final (run env_last (save_annotations jsonb_column python_eq 1 [circle])
                          w_cat_rect)))
  = Annotation.id <$> annotations (database w_cat_rect)
  ∧ annotations
      (database (final (run env_later (save_annotations jsonb_column python_eq 1 [rect])
                          w_cat)))
    = annotations (database w_cat) ++ [Annotation.mk 1 1 [rect] 20].
Proof.
  assert (annotation_rows w_cat_rect 1 ≠ []) as Hann by (vm_compute; discriminate).
  assert (image_rows w_cat 1 ≠ []) as Hrow by (vm_compute; discriminate).
  assert (in_integer 1) as Hint by (unfold in_integer; lia).
  assert (jsonb_column [rect] = Some [rect]) as Hstored by (vm_compute; reflexivity).
  split.
  - exact (proj1 (proj1 (save_annotations_upserts jsonb_column python_eq env_last 1
                           [circle] w_cat_rect) Hann)).
  - exact (proj1 (proj2 (save_annotations_upserts jsonb_column python_eq env_later 1
                           [rect] w_cat) [rect] eq_refl Hrow Hint Hstored)).
Defined.

Lemma get_images_pages_tile_witness :
  NoDup (Image.created_at <$> images (database w_three))
  ∧ 1 + 2 < 9223372036854775808
  ∧ ∃ page1 page2,
      returned (run env0 (get_images 0 1) w_three) = Ok page1
      ∧ returned (run env_reversed (get_images (0 + 1) 2) w_three) = Ok page2
      ∧ returned (run env_last (get_images 0 (1 + 2)) w_three) = Ok (page1 ++ page2)
      ∧ Image.id <$> page1 ++ page2 = [3; 2; 1].
Proof.
  assert (1 + 2 < 9223372036854775808) as Hbound by lia.
  split; [exact w_three_no_ties|]. split; [exact Hbound|].
  eexists _, _. split; [reflexivity|]. split; [reflexivity|].
  split; [|vm_compute; reflexivity].
  exact (get_images_pages_tile env0 env_reversed env_last 0 1 2 w_three _ _
           w_three_no_ties Hbound eq_refl eq_refl).
Defined.

Lemma get_images_lists_all_witness :
  Z.of_nat (length (images (database w_tie))) ≤ 100
  ∧ 100 < 9223372036854775808
  ∧ ∃ page,
      returned (run env0 (get_images 0 100) w_tie) = Ok page
      ∧ page ≡ₚ images (database w_tie)
      ∧ descending page.
Proof.
  assert (Z.of_nat (length (images (database w_tie))) ≤ 100) as Hlen
    by (vm_compute; discriminate).
  assert (100 < 9223372036854775808) as Hbound by lia.
  split; [exact Hlen|]. split; [exact Hbound|].
  exact (get_images_lists_all env0 100 w_tie Hlen Hbound).
Defined.

Lemma get_images_past_the_end_witness :
  0 ≤ 2 ∧ 2 < 9223372036854775808 ∧ 0 ≤ 100 ∧ 100 < 9223372036854775808
  ∧ (100 = 0 ∨ Z.of_nat (length (images (database w_tie))) ≤ 2)
  ∧ returned (run env0 (get_images 2 100) w_tie) = Ok [].
Proof.
  assert (0 ≤ 2) as Hskip by lia. assert (2 < 9223372036854775808) as Hskip' by lia.
  assert (0 ≤ 100) as Hlimit by lia. assert (100 < 9223372036854775808) as Hlimit' by lia.
  assert (100 = 0 ∨ Z.of_nat (length (images (database w_tie))) ≤ 2) as Hedge
    by (right; vm_compute; discriminate).
  split; [exact Hskip|]. split; [exact Hskip'|]. split; [exact Hlimit|].
  split; [exact Hlimit'|]. split; [exact Hedge|].
  exact (get_images_past_the_end env0 2 100 w_tie Hskip Hskip' Hlimit Hlimit' Hedge).
Defined.


Lemma w_two_annotated_reachable : reachable url_of jsonb_column python_eq w_two_annotated.
Proof. repeat apply reachable_step. apply reachable_empty. Qed.

Lemma reachable_store_consistent_witness :
  reachable url_of jsonb_column python_eq w_two_annotated
  ∧ consistent w_two_annotated ∧ one_annotation_per_image w_two_annotated.
Proof.
  split; [exact w_two_annotated_reachable|].
  exact (reachable_store_consistent url_of jsonb_column python_eq w_two_annotated
           w_two_annotated_reachable).
Defined.


Lemma delete_image_removes_blob_witness :
  head (image_rows w_cat_rect 1) = Some (uploaded_row url_of env0 cat_png (@empty_world shape))
  ∧ remove_failure env0 = None
  ∧ bucket (final (run env0 (delete_image 1) w_cat_rect))
      !! "0f8fad5b-d9cb-469f-a165-70867728950e.png"%string = None.
Proof.
  split; [reflexivity|]. split; [reflexivity|].
  exact (proj1 (delete_image_removes_blob env0 1
                  (uploaded_row url_of env0 cat_png (@empty_world shape)) w_cat_rect
                  eq_refl eq_refl)).
Defined.

Lemma w_cat_rect_consistent : consistent w_cat_rect.
Proof.
  repeat apply step_consistent.
  constructor; unfold image_rows; cbn; try apply NoDup_nil_2.
  all: by intros ? ?%not_elem_of_nil.
Defined.

